(** * X720 fuel gauge: the driver of [custom_components/x720/sensor.py]

    A shallow embedding of the I2C driver ([X720]), of the caching handler
    ([X720Handler]) and of the set-up routine ([_setup_x720]), followed by
    the properties of the read cycle, of the cache and of initialisation.

    Python floats are IEEE 754 binary64 numbers: they are modelled by the
    kernel's primitive floats, so every arithmetic step rounds as it does in
    the interpreter.  Exceptions are an explicit outcome of every effectful
    operation; the state that an operation had reached when it raised is
    kept, as it is in Python. *)

From Stdlib Require Import ZArith List String Bool Lia Floats Uint63.
Import ListNotations.

Local Open Scope Z_scope.

(** ** Python values, exceptions, outcomes *)

(** The exceptions that the modelled code can meet: [IOError] and
    [RuntimeError] are the two classes named by the [except] clause of
    [_setup_x720]; [StructError] is [struct.error]. *)
Inductive exn : Type :=
| IOError
| RuntimeError
| StructError.

(** The values stored in the attributes of [FieldData] and [SensorData]. *)
Inductive pyval : Type :=
| PyNone
| PyBool (b : bool)
| PyFloat (f : float).

(** Python truth value, as tested by [if not ...voltage]: [None], [False]
    and a float equal to zero (of either sign) are falsy; NaN is truthy. *)
Definition truthy (v : pyval) : bool :=
  match v with
  | PyNone => false
  | PyBool b => b
  | PyFloat f => negb (PrimFloat.eqb f 0%float)
  end.

Inductive outcome (A : Type) : Type :=
| Ok (a : A)
| Raise (e : exn).
Arguments Ok {A} a.
Arguments Raise {A} e.

(** ** The outside world: bus transactions, sleeps, log records *)

(** What one [read_word_data] transaction does: deliver a word or raise. *)
Inductive reply : Type :=
| Word (w : Z)
| Fault (e : exn).

Inductive event : Type :=
| EvRead (addr reg : Z) (r : reply)
| EvSleep (secs : float)
| EvLogError (fmt : string) (args : list Z).

(** Events in the order in which they happened. *)
Definition history := list event.

(** An open SMBus handle.  The device answers a word read according to
    everything that happened before it (earlier transactions, elapsed
    sleeps), the device address and the register. *)
Definition bus := history -> Z -> Z -> reply.

(** ** A state-and-exception monad

    [Exec S A] is a computation over a mutable state [S] that returns an [A]
    or raises.  The state reached at the raise is part of the result. *)
Definition Exec (S A : Type) : Type := S -> outcome A * S.

Definition ret {S A} (a : A) : Exec S A := fun s => (Ok a, s).

Definition raise {S A} (e : exn) : Exec S A := fun s => (Raise e, s).

Definition bind {S A B} (m : Exec S A) (k : A -> Exec S B) : Exec S B :=
  fun s =>
    match m s with
    | (Ok a, s') => k a s'
    | (Raise e, s') => (Raise e, s')
    end.

Declare Scope exec_scope.
Delimit Scope exec_scope with exec.
Notation "x <- m ;; k" := (bind m (fun x => k))
  (at level 61, m at next level, right associativity) : exec_scope.
Notation "m ;; k" := (bind m (fun _ => k))
  (at level 61, right associativity) : exec_scope.
Local Open Scope exec_scope.

Definition get {S} : Exec S S := fun s => (Ok s, s).
Definition modify {S} (f : S -> S) : Exec S unit := fun s => (Ok tt, f s).

(** [try: m except (classes): h].  Classes outside [catches] propagate. *)
Definition try_except {S A} (m : Exec S A) (catches : exn -> bool)
           (h : Exec S A) : Exec S A :=
  fun s =>
    match m s with
    | (Ok a, s') => (Ok a, s')
    | (Raise e, s') => if catches e then h s' else (Raise e, s')
    end.

(** A method body runs over its object and the world. *)
Definition Method (O A : Type) : Type := Exec (O * history) A.

(** A module-level effect, seen from inside a method. *)
Definition io {O A} (m : Exec history A) : Method O A :=
  fun '(o, h) => let '(r, h') := m h in (r, (o, h')).

(** Run a constructor body on a freshly allocated object.  When the body
    raises, no reference to the object survives. *)
Definition construct {O} (fresh : O) (body : Method O unit) : Exec history O :=
  fun h =>
    match body (fresh, h) with
    | (Ok _, (o, h')) => (Ok o, h')
    | (Raise e, (_, h')) => (Raise e, h')
    end.

Definition emit (e : event) : Exec history unit :=
  modify (fun h => h ++ [e]).

(** [time.sleep(secs)] *)
Definition sleep (secs : float) : Exec history unit := emit (EvSleep secs).

(** [_LOGGER.error(fmt, *args)] *)
Definition log_error (fmt : string) (args : list Z) : Exec history unit :=
  emit (EvLogError fmt args).

(** [bus.read_word_data(addr, reg)] *)
Definition read_word_data (b : bus) (addr reg : Z) : Exec history Z :=
  fun h =>
    let r := b h addr reg in
    (match r with Word w => Ok w | Fault e => Raise e end,
     h ++ [EvRead addr reg r]).

(** ** [struct] *)

(** [struct.pack(">H", n)]: two bytes, most significant first;
    [struct.error] outside [0, 65535]. *)
Definition pack_be_H {S} (n : Z) : Exec S (list Z) :=
  if (0 <=? n) && (n <=? 65535)
  then ret [Z.shiftr n 8; Z.land n 255]
  else raise StructError.

(** [struct.unpack("<H", b)[0]]: least significant byte first;
    [struct.error] unless [b] has two bytes. *)
Definition unpack_le_H {S} (b : list Z) : Exec S Z :=
  match b with
  | [b0; b1] => ret (Z.lor b0 (Z.shiftl b1 8))
  | _ => raise StructError
  end.

(** [struct.unpack("<H", struct.pack(">H", read))[0]] *)
Definition byteswap {S} (read : Z) : Exec S Z :=
  b <- pack_be_H read ;; unpack_le_H b.

(** The same conversion as a pure function on words, [None] standing for
    [struct.error]. *)
Definition swap16 (w : Z) : option Z :=
  match byteswap w tt with
  | (Ok v, _) => Some v
  | (Raise _, _) => None
  end.

(** ** Float arithmetic of the conversions *)

(** [float(n)] for an [int] in [0, 2^63). *)
Definition float_of_int (n : Z) : float := PrimFloat.of_uint63 (Uint63.of_Z n).

(** [swapped * 1.25 /1000/16] *)
Definition voltage_of (swapped : Z) : float :=
  (float_of_int swapped * 1.25 / 1000 / 16)%float.

(** [swapped/256] *)
Definition capacity_of (swapped : Z) : float :=
  (float_of_int swapped / 256)%float.

(** ** Module constants *)

Definition DEFAULT_I2C_ADDRESS : Z := 0x36.
Definition DEFAULT_I2C_BUS : Z := 1.

(** ** [FieldData], [X720Data], [X720] *)

Module FieldData.
Record t : Type := mk { status : pyval; voltage : pyval; capacity : pyval }.

Definition __init__ : t :=
  {| status := PyNone; voltage := PyBool false; capacity := PyNone |}.

Definition set_voltage (v : pyval) (d : t) : t :=
  {| status := status d; voltage := v; capacity := capacity d |}.
Definition set_capacity (v : pyval) (d : t) : t :=
  {| status := status d; voltage := voltage d; capacity := v |}.
End FieldData.

Module X720.
Record t : Type := mk { data : FieldData.t; i2c_addr : Z; _i2c : bus }.

(** [self.data.<attribute> = ...] *)
Definition with_data (f : FieldData.t -> FieldData.t) (self : t) : t :=
  {| data := f (data self); i2c_addr := i2c_addr self; _i2c := _i2c self |}.

Definition set_data (f : FieldData.t -> FieldData.t) : Method t unit :=
  modify (fun '(self, h) => (with_data f self, h)).

Definition self_read (reg : Z) : Method t Z :=
  st <- get ;;
  io (read_word_data (_i2c (fst st)) (i2c_addr (fst st)) reg).

(** [X720.get_sensor_data] *)
Definition get_sensor_data : Method t bool :=
  read <- self_read 2 ;;
  swapped <- byteswap read ;;
  set_data (FieldData.set_voltage (PyFloat (voltage_of swapped))) ;;
  read <- self_read 4 ;;
  swapped <- byteswap read ;;
  set_data (FieldData.set_capacity (PyFloat (capacity_of swapped))) ;;
  ret true.

(** The object once [X720Data.__init__] has set [data] and the address and
    the bus handle are stored, before the constructor reads the device. *)
Definition allocated (i2c_addr : Z) (dev : bus) : t :=
  {| data := FieldData.__init__; i2c_addr := i2c_addr; _i2c := dev |}.

(** [X720.__init__(i2c_addr, i2c_device)]; [smbus] is the imported module's
    [SMBus] constructor, used when no device is passed. *)
Definition __init__ (smbus : Z -> Exec history bus)
           (i2c_addr : Z) (i2c_device : option bus) : Exec history t :=
  dev <- match i2c_device with
         | Some b => ret b
         | None => smbus 1
         end ;;
  construct (allocated i2c_addr dev) (get_sensor_data ;; ret tt).
End X720.

(** ** [X720Handler] and its nested [SensorData] *)

Module X720Handler.

(** [X720Handler.SensorData] *)
Module SensorData.
Record t : Type := mk { voltage : pyval; capacity : pyval }.

Definition __init__ : t := {| voltage := PyNone; capacity := PyNone |}.

Definition set_voltage (v : pyval) (d : t) : t :=
  {| voltage := v; capacity := capacity d |}.
Definition set_capacity (v : pyval) (d : t) : t :=
  {| voltage := voltage d; capacity := v |}.
End SensorData.

Record t : Type := mk { sensor_data : SensorData.t; _sensor : X720.t }.

(** [self.sensor_data.<attribute> = ...], the value being read from
    [self] *)
Definition with_sensor_data (f : t -> SensorData.t -> SensorData.t)
           (self : t) : t :=
  {| sensor_data := f self (sensor_data self); _sensor := _sensor self |}.

Definition set_sensor_data (f : t -> SensorData.t -> SensorData.t)
  : Method t unit :=
  modify (fun '(self, h) => (with_sensor_data f self, h)).

(** The device object after a method call mutated it *)
Definition with_sensor (s : X720.t) (self : t) : t :=
  {| sensor_data := sensor_data self; _sensor := s |}.

(** A call of a method of [self._sensor]: the handler holds the only
    reference to the device object that is used after set-up. *)
Definition on_sensor {A} (m : Method X720.t A) : Method t A :=
  fun '(self, h) =>
    let '(r, (s', h')) := m (_sensor self, h) in
    (r, (with_sensor s' self, h')).

(** [X720Handler.update(first_read)] *)
Definition update (first_read : bool) : Method t unit :=
  (if first_read
   then on_sensor X720.get_sensor_data ;; ret tt
   else ret tt) ;;
  ok <- on_sensor X720.get_sensor_data ;;
  if (ok : bool) then
    set_sensor_data (fun self =>
      SensorData.set_voltage (FieldData.voltage (X720.data (_sensor self)))) ;;
    set_sensor_data (fun self =>
      SensorData.set_capacity (FieldData.capacity (X720.data (_sensor self))))
  else ret tt.

(** The object once [sensor_data] and [_sensor] are set, before the
    constructor calls [update]. *)
Definition allocated (sensor : X720.t) : t :=
  {| sensor_data := SensorData.__init__; _sensor := sensor |}.

(** [X720Handler.__init__(sensor)] *)
Definition __init__ (sensor : X720.t) : Exec history t :=
  construct (allocated sensor) (update true).
End X720Handler.

(** A cache that holds two floats. *)
Definition reading (v c : float) : X720Handler.SensorData.t :=
  {| X720Handler.SensorData.voltage := PyFloat v;
     X720Handler.SensorData.capacity := PyFloat c |}.


(** ** [_setup_x720] *)

(** The two entries of the platform configuration that the set-up reads. *)
Record config : Type := { CONF_I2C_ADDRESS : Z; CONF_I2C_BUS : Z }.

(** [except (RuntimeError, IOError)] *)
Definition RuntimeError_or_IOError (e : exn) : bool :=
  match e with
  | IOError | RuntimeError => true
  | StructError => false
  end.

(** [_setup_x720(config)]; [SMBus] is the constructor imported from [smbus].
    [None] is the Python [None] that the function returns on failure. *)
Definition _setup_x720 (SMBus : Z -> Exec history bus) (cfg : config)
  : Exec history (option X720Handler.t) :=
  let i2c_address := CONF_I2C_ADDRESS cfg in
  detected <- try_except
                (bus <- SMBus (CONF_I2C_BUS cfg) ;;
                 sensor <- X720.__init__ SMBus i2c_address (Some bus) ;;
                 ret (Some sensor))
                RuntimeError_or_IOError
                (log_error "X720 sensor not detected at 0x%02x" [i2c_address] ;;
                 ret None) ;;
  match detected with
  | None => ret None
  | Some sensor =>
      sensor_handler <- X720Handler.__init__ sensor ;;
      sleep 0.5 ;;
      if negb (truthy (X720Handler.SensorData.voltage
                         (X720Handler.sensor_data sensor_handler)))
      then log_error "X720 sensor failed to Initialize" [] ;; ret None
      else ret (Some sensor_handler)
  end.

(** ** Sample devices and hosts *)

(** A bus on which every transaction delivers the same word. *)
Definition steady_bus (w : Z) : bus := fun _ _ _ => Word w.

(** A bus whose [n]-th transaction (counted from 0) raises [e]; the others
    deliver [w]. *)
Definition read_count (h : history) : nat :=
  List.length
    (filter (fun ev => match ev with EvRead _ _ _ => true | _ => false end)
            h).

Definition faulty_bus (n : nat) (e : exn) (w : Z) : bus :=
  fun h _ _ => if Nat.eqb (read_count h) n then Fault e else Word w.

(** A gauge that answers zero until half a second of sleep has elapsed
    since the bus was opened, and [w] afterwards. *)
Definition slept (h : history) : bool :=
  existsb (fun ev => match ev with
                     | EvSleep s => PrimFloat.leb 0.5 s
                     | _ => false
                     end) h.

Definition settling_bus (w : Z) : bus :=
  fun h _ _ => if slept h then Word w else Word 0.

(** [SMBus(n)] that always opens the given bus. *)
Definition open_bus (b : bus) : Z -> Exec history bus := fun _ => ret b.

(** [SMBus(n)] on a host without the I2C device node. *)
Definition no_bus : Z -> Exec history bus := fun _ => raise IOError.

Definition default_config : config :=
  {| CONF_I2C_ADDRESS := DEFAULT_I2C_ADDRESS;
     CONF_I2C_BUS := DEFAULT_I2C_BUS |}.

(** ** Running a handler through a sequence of [update] calls

    The host keeps polling after an [update] that raised: each call starts
    from the state the previous one left behind, whatever its outcome. *)
Fixpoint run_updates (ops : list bool) (st : X720Handler.t * history)
  : list (outcome unit) * (X720Handler.t * history) :=
  match ops with
  | [] => ([], st)
  | first_read :: ops' =>
      let '(r, st') := X720Handler.update first_read st in
      let '(rs, st'') := run_updates ops' st' in
      (r :: rs, st'')
  end.

Definition returned {A} (r : outcome A) : bool :=
  match r with Ok _ => true | Raise _ => false end.

(** ** Predicates used in the statements *)

Definition is_read (ev : event) : Prop :=
  match ev with EvRead _ _ _ => True | _ => False end.

(** The bus raises [e] in the read cycle that starts at [h]: on the voltage
    register, or on the capacity register after a voltage word. *)
Definition cycle_fault (self : X720.t) (h : history) (e : exn) : Prop :=
  let a := X720.i2c_addr self in
  X720._i2c self h a 2 = Fault e \/
  exists w2, 0 <= w2 < 65536 /\
             X720._i2c self h a 2 = Word w2 /\
             X720._i2c self (h ++ [EvRead a 2 (Word w2)]) a 4 = Fault e.

(** The cache holds a pair of floats. *)
Definition is_reading (d : X720Handler.SensorData.t) : Prop :=
  exists v c, d = reading v c.

(** The cache holds the conversion of the two words of one read cycle
    recorded in [h]: a read of register 2 directly followed by a read of
    register 4 of the same device. *)
Definition from_cycle (h : history) (d : X720Handler.SensorData.t) : Prop :=
  exists pre post a w2 w4 v2 v4,
    h = pre ++ EvRead a 2 (Word w2) :: EvRead a 4 (Word w4) :: post /\
    swap16 w2 = Some v2 /\ swap16 w4 = Some v4 /\
    d = reading (voltage_of v2) (capacity_of v4).

(** The five ways in which one read cycle of the device object [self],
    started at history [h], can end. *)
Inductive read_cycle (self : X720.t) (h : history)
  : outcome bool * (X720.t * history) -> Prop :=
| cycle_voltage_fault e :
    X720._i2c self h (X720.i2c_addr self) 2 = Fault e ->
    read_cycle self h
      (Raise e, (self, h ++ [EvRead (X720.i2c_addr self) 2 (Fault e)]))
| cycle_voltage_range w2 :
    X720._i2c self h (X720.i2c_addr self) 2 = Word w2 ->
    swap16 w2 = None ->
    read_cycle self h
      (Raise StructError,
       (self, h ++ [EvRead (X720.i2c_addr self) 2 (Word w2)]))
| cycle_capacity_fault w2 v2 e :
    X720._i2c self h (X720.i2c_addr self) 2 = Word w2 ->
    swap16 w2 = Some v2 ->
    X720._i2c self (h ++ [EvRead (X720.i2c_addr self) 2 (Word w2)])
              (X720.i2c_addr self) 4 = Fault e ->
    read_cycle self h
      (Raise e,
       (X720.with_data (FieldData.set_voltage (PyFloat (voltage_of v2))) self,
        h ++ [EvRead (X720.i2c_addr self) 2 (Word w2);
              EvRead (X720.i2c_addr self) 4 (Fault e)]))
| cycle_capacity_range w2 v2 w4 :
    X720._i2c self h (X720.i2c_addr self) 2 = Word w2 ->
    swap16 w2 = Some v2 ->
    X720._i2c self (h ++ [EvRead (X720.i2c_addr self) 2 (Word w2)])
              (X720.i2c_addr self) 4 = Word w4 ->
    swap16 w4 = None ->
    read_cycle self h
      (Raise StructError,
       (X720.with_data (FieldData.set_voltage (PyFloat (voltage_of v2))) self,
        h ++ [EvRead (X720.i2c_addr self) 2 (Word w2);
              EvRead (X720.i2c_addr self) 4 (Word w4)]))
| cycle_complete w2 v2 w4 v4 :
    X720._i2c self h (X720.i2c_addr self) 2 = Word w2 ->
    swap16 w2 = Some v2 ->
    X720._i2c self (h ++ [EvRead (X720.i2c_addr self) 2 (Word w2)])
              (X720.i2c_addr self) 4 = Word w4 ->
    swap16 w4 = Some v4 ->
    read_cycle self h
      (Ok true,
       (X720.with_data (FieldData.set_capacity (PyFloat (capacity_of v4)))
          (X720.with_data (FieldData.set_voltage (PyFloat (voltage_of v2)))
             self),
        h ++ [EvRead (X720.i2c_addr self) 2 (Word w2);
              EvRead (X720.i2c_addr self) 4 (Word w4)])).

(** What an [update] does to the handler and to the world.  A call that
    returns ends with a complete read cycle whose two conversions are the
    new cache; a call that raises leaves the cache as it was. *)
Definition update_effect (hd : X720Handler.t) (h : history)
           (r : outcome unit) (hd' : X720Handler.t) (h' : history) : Prop :=
  (exists evs, h' = h ++ evs /\ Forall is_read evs /\ evs <> []) /\
  X720._i2c (X720Handler._sensor hd') = X720._i2c (X720Handler._sensor hd) /\
  X720.i2c_addr (X720Handler._sensor hd')
  = X720.i2c_addr (X720Handler._sensor hd) /\
  match r with
  | Ok _ =>
      exists pre w2 v2 w4 v4,
        swap16 w2 = Some v2 /\ swap16 w4 = Some v4 /\
        h' = h ++ pre
               ++ [EvRead (X720.i2c_addr (X720Handler._sensor hd)) 2 (Word w2);
                   EvRead (X720.i2c_addr (X720Handler._sensor hd)) 4 (Word w4)]
        /\
        X720Handler.sensor_data hd'
        = reading (voltage_of v2) (capacity_of v4)
  | Raise _ => X720Handler.sensor_data hd' = X720Handler.sensor_data hd
  end.

(** A handler in service, holding the reading 4 V / 90 % of an earlier
    cycle, on the default address. *)
Definition serving_sensor (b : bus) : X720.t :=
  {| X720.data := {| FieldData.status := PyNone;
                     FieldData.voltage := PyFloat 4;
                     FieldData.capacity := PyFloat 90 |};
     X720.i2c_addr := DEFAULT_I2C_ADDRESS;
     X720._i2c := b |}.

Definition serving_handler (b : bus) : X720Handler.t :=
  {| X720Handler.sensor_data :=
       reading 4 90;
     X720Handler._sensor := serving_sensor b |}.

(** The handler after the two assignments that end an [update] whose read
    cycle returned [True] and left the device object as [s']. *)
Definition caching (s' : X720.t) : X720Handler.t :=
  {| X720Handler.sensor_data :=
       {| X720Handler.SensorData.voltage := FieldData.voltage (X720.data s');
          X720Handler.SensorData.capacity :=
            FieldData.capacity (X720.data s') |};
     X720Handler._sensor := s' |}.

(** ** The sensor platform: constants, values, exceptions *)

Definition DEFAULT_NAME : string := "X720 Sensor".

Definition SENSOR_VOLTAGE : string := "voltage".
Definition SENSOR_CAPACITY : string := "capacity".

(** The dict [SENSOR_TYPES], in insertion order; each value is the list
    [[label, unit]]. *)
Definition SENSOR_TYPES : list (string * list string) :=
  [(SENSOR_VOLTAGE, ["Voltage"; "V"]%string);
   (SENSOR_CAPACITY, ["Capacity"; "%"]%string)].

Definition DEFAULT_MONITORED : list string := [SENSOR_VOLTAGE; SENSOR_CAPACITY].

(** What the entity layer can raise: an exception that comes up from the
    driver, or one of its own look-ups and conversions. *)
Inductive py_exn : Type :=
| Propagated (e : exn)
| KeyError (key : string)
| IndexError
| TypeError.

Inductive result (A : Type) : Type :=
| Done (a : A)
| Failed (e : py_exn).
Arguments Done {A} a.
Arguments Failed {A} e.

Definition and_then {A B} (m : result A) (k : A -> result B) : result B :=
  match m with
  | Done a => k a
  | Failed e => Failed e
  end.

Declare Scope result_scope.
Delimit Scope result_scope with result.
Notation "x <- m ;; k" := (and_then m (fun x => k))
  (at level 61, m at next level, right associativity) : result_scope.

(** [d[key]] on a dict *)
Fixpoint dict_getitem {V} (d : list (string * V)) (key : string) : result V :=
  match d with
  | [] => Failed (KeyError key)
  | (k, v) :: d' => if String.eqb k key then Done v else dict_getitem d' key
  end.

(** [l[i]] on a list, for [i >= 0] *)
Definition list_getitem {A} (l : list A) (i : nat) : result A :=
  match nth_error l i with
  | Some a => Done a
  | None => Failed IndexError
  end.

(** The values of the attribute [_state]: [None], or what [round] returned,
    an [int] or a [float]. *)
Inductive state_val : Type :=
| StNone
| StInt (n : Z)
| StFloat (f : float).

(** [round(v, 1)].  [round_1] is the built-in on floats; a [bool] is an
    [int] and rounds to the [int] it stands for; [None] has no
    [__round__]. *)
Definition py_round_1 (round_1 : float -> float) (v : pyval)
  : result state_val :=
  match v with
  | PyNone => Failed TypeError
  | PyBool b => Done (StInt (Z.b2z b))
  | PyFloat f => Done (StFloat (round_1 f))
  end.

(** The nearest integer to [num / 2^k], ties to the even one
    ([0 <= num], [0 < k]). *)
Definition round_half_even_pow2 (num k : Z) : Z :=
  let q := Z.shiftr num k in
  let r := Z.land num (Z.ones k) in
  match (2 * r) ?= Z.shiftl 1 k with
  | Lt => q
  | Gt => q + 1
  | Eq => if Z.even q then q else q + 1
  end.

(** CPython's [float.__round__] with [ndigits = 1]: the exact value
    [m * 2^e] of [x] is rounded, ties to even, to [n] tenths, and the result
    is the double nearest to [n / 10] with the sign of [x]; zeros,
    infinities and NaN round to themselves.  The division is exact
    arithmetic followed by one rounding as long as [n] is a double, that is
    below [2^53]; from there on the doubles are at least an eighth apart,
    so that the double nearest to [n / 10] is [x] itself. *)
Definition float_round_1 (x : float) : float :=
  match Prim2SF x with
  | S754_finite s m e =>
      let n := if 0 <=? e
               then Z.shiftl (10 * Z.pos m) e
               else round_half_even_pow2 (10 * Z.pos m) (- e) in
      if n <? 2 ^ 53
      then let r := (float_of_int n / 10)%float in
           if s then (- r)%float else r
      else x
  | _ => x
  end.

(** ** [X720Sensor] *)

Module X720Sensor.

(** The attribute [x720_client] is a reference to the handler that
    [_setup_x720] returned.  All entities of a platform hold the same
    reference, so the handler is not copied into the record: it is part of
    the state that [async_update] runs over. *)
Record t : Type := mk {
  client_name : string;
  _name : string;
  temp_unit : string;
  type : string;
  _state : state_val;
  _unit_of_measurement : string
}.

(** [X720Sensor.__init__(x720_client, sensor_type, temp_unit, name)]; the
    reference [x720_client] is stored and not used, see above. *)
Definition __init__ (sensor_type temp_unit name : string) : result t :=
  (entry <- dict_getitem SENSOR_TYPES sensor_type ;;
   label <- list_getitem entry 0 ;;
   entry' <- dict_getitem SENSOR_TYPES sensor_type ;;
   unit_ <- list_getitem entry' 1 ;;
   Done {| client_name := name;
           _name := label;
           temp_unit := temp_unit;
           type := sensor_type;
           _state := StNone;
           _unit_of_measurement := unit_ |})%result.

(** ['{} {}'.format(self.client_name, self._name)] *)
Definition name (self : t) : string :=
  (client_name self ++ " " ++ _name self)%string.

Definition state (self : t) : state_val := _state self.

Definition unit_of_measurement (self : t) : string :=
  _unit_of_measurement self.

(** [self._state >= bound], the state being an [int] or a [float] *)
Definition state_ge (st : state_val) (bound : Z) : bool :=
  match st with
  | StNone => false
  | StInt n => bound <=? n
  | StFloat f => PrimFloat.leb (float_of_int bound) f
  end.

(** [isinstance(self._state, int) or isinstance(self._state, float)] *)
Definition is_number (st : state_val) : bool :=
  match st with
  | StNone => false
  | StInt _ | StFloat _ => true
  end.

(** The property [icon]; [None] is the Python [None] of a function that
    falls off its end. *)
Definition icon (self : t) : option string :=
  if String.eqb (type self) SENSOR_VOLTAGE then Some "mdi:flash"%string
  else if String.eqb (type self) SENSOR_CAPACITY then
    if is_number (_state self) then
      if state_ge (_state self) 100 then Some "mdi:battery"%string
      else if state_ge (_state self) 50 then Some "mdi:battery-50"%string
      else Some "mdi:battery-alert"%string
    else Some "mdi:battery-unknown"%string
  else None.

Definition set_state (st : state_val) (self : t) : t :=
  {| client_name := client_name self; _name := _name self;
     temp_unit := temp_unit self; type := type self;
     _state := st; _unit_of_measurement := _unit_of_measurement self |}.

(** [X720Sensor.async_update]: the handler's [update] runs to its end in
    the executor, then the state is rounded from the cache. *)
Definition async_update (round_1 : float -> float)
           (st : t * (X720Handler.t * history))
  : result unit * (t * (X720Handler.t * history)) :=
  let '(self, world) := st in
  match X720Handler.update false world with
  | (Raise e, world') => (Failed (Propagated e), (self, world'))
  | (Ok _, (client, h')) =>
      let cache := X720Handler.sensor_data client in
      if String.eqb (type self) SENSOR_VOLTAGE then
        match py_round_1 round_1 (X720Handler.SensorData.voltage cache) with
        | Done v => (Done tt, (set_state v self, (client, h')))
        | Failed e => (Failed e, (self, (client, h')))
        end
      else if String.eqb (type self) SENSOR_CAPACITY then
        match py_round_1 round_1 (X720Handler.SensorData.capacity cache) with
        | Done v => (Done tt, (set_state v self, (client, h')))
        | Failed e => (Failed e, (self, (client, h')))
        end
      else (Done tt, (self, (client, h')))
  end.

End X720Sensor.

(** ** [async_setup_platform] *)

(** The platform configuration after schema validation: the two entries
    that [_setup_x720] reads, the name and the monitored conditions. *)
Record platform_config : Type := {
  driver_config : config;
  CONF_NAME : string;
  CONF_MONITORED_CONDITIONS : list string
}.

(** The loop [for variable in config[CONF_MONITORED_CONDITIONS]:
    dev.append(X720Sensor(sensor_handler, variable,
    SENSOR_TYPES[variable][1], name))], started with the list [dev]. *)
Fixpoint append_entities (name : string) (variables : list string)
         (dev : list X720Sensor.t) : result (list X720Sensor.t) :=
  match variables with
  | [] => Done dev
  | variable :: rest =>
      (entry <- dict_getitem SENSOR_TYPES variable ;;
       unit_ <- list_getitem entry 1 ;;
       entity <- X720Sensor.__init__ variable unit_ name ;;
       append_entities name rest (dev ++ [entity]))%result
  end.

(** [async_setup_platform(hass, config, async_add_entities)].  The result
    tells what [async_add_entities] received: [None] when it was not
    called, otherwise the list [dev] together with the one handler that
    every entity of [dev] refers to. *)
Definition async_setup_platform (SMBus : Z -> Exec history bus)
           (cfg : platform_config) (h : history)
  : result (option (X720Handler.t * list X720Sensor.t)) * history :=
  let name := CONF_NAME cfg in
  match _setup_x720 SMBus (driver_config cfg) h with
  | (Raise e, h') => (Failed (Propagated e), h')
  | (Ok None, h') => (Done None, h')
  | (Ok (Some sensor_handler), h') =>
      match append_entities name (CONF_MONITORED_CONDITIONS cfg) [] with
      | Done dev => (Done (Some (sensor_handler, dev)), h')
      | Failed e => (Failed e, h')
      end
  end.

(** The host polls the entities one after the other; every entity keeps
    what its own call left, and all calls share the handler. *)
Fixpoint poll (round_1 : float -> float) (entities : list X720Sensor.t)
         (world : X720Handler.t * history)
  : list (result unit) * (list X720Sensor.t * (X720Handler.t * history)) :=
  match entities with
  | [] => ([], ([], world))
  | entity :: rest =>
      let '(r, (entity', world')) :=
        X720Sensor.async_update round_1 (entity, world) in
      let '(rs, (rest', world'')) := poll round_1 rest world' in
      (r :: rs, (entity' :: rest', world''))
  end.

(** ** Auxiliary definitions of the proofs by enumeration *)

(** [start], [start + 1], ... ([n] integers) *)
Fixpoint zrange (start : Z) (n : nat) : list Z :=
  match n with
  | O => []
  | S k => start :: zrange (start + 1) k
  end.

(** The unsigned 16-bit words *)
Definition u16s : list Z := zrange 0 (Z.to_nat 65536).

(** The integer part of a float in [0, 2^53), on primitive integers: the
    53-bit mantissa shifted right by what the exponent leaves of it. *)
Definition trunc63 (x : float) : int :=
  let (m, e) := PrimFloat.frshiftexp x in
  Uint63.lsr (PrimFloat.normfr_mantissa m) (Uint63.sub 2154 e).


(** The bus answers the successive reads [(register, word)] of [script],
    issued from history [h] on to device [a], with these words. *)
Fixpoint delivers (b : bus) (a : Z) (h : history) (script : list (Z * Z))
  : Prop :=
  match script with
  | [] => True
  | (reg, w) :: rest =>
      b h a reg = Word w /\ delivers b a (h ++ [EvRead a reg (Word w)]) rest
  end.

(** The history of the reads of [script]. *)
Definition reads_of (a : Z) (script : list (Z * Z)) : history :=
  map (fun '(reg, w) => EvRead a reg (Word w)) script.

(** The word with its two bytes exchanged. *)
Definition swapped (w : Z) : Z := w / 256 + 256 * (w mod 256).

(** A monitored condition that [SENSOR_TYPES] has. *)
Definition known (variable : string) : Prop :=
  variable = SENSOR_VOLTAGE \/ variable = SENSOR_CAPACITY.

(** The entity registered for a monitored condition under a platform
    name. *)
Definition registered (name variable : string) (entity : X720Sensor.t)
  : Prop :=
  (variable = SENSOR_VOLTAGE /\
   entity = {| X720Sensor.client_name := name;
               X720Sensor._name := "Voltage";
               X720Sensor.temp_unit := "V";
               X720Sensor.type := SENSOR_VOLTAGE;
               X720Sensor._state := StNone;
               X720Sensor._unit_of_measurement := "V" |}) \/
  (variable = SENSOR_CAPACITY /\
   entity = {| X720Sensor.client_name := name;
               X720Sensor._name := "Capacity";
               X720Sensor.temp_unit := "%";
               X720Sensor.type := SENSOR_CAPACITY;
               X720Sensor._state := StNone;
               X720Sensor._unit_of_measurement := "%" |}).

(** The two entities of the default configuration, as constructed. *)
Definition voltage_entity : X720Sensor.t :=
  {| X720Sensor.client_name := DEFAULT_NAME;
     X720Sensor._name := "Voltage";
     X720Sensor.temp_unit := "V";
     X720Sensor.type := SENSOR_VOLTAGE;
     X720Sensor._state := StNone;
     X720Sensor._unit_of_measurement := "V" |}.

Definition capacity_entity : X720Sensor.t :=
  {| X720Sensor.client_name := DEFAULT_NAME;
     X720Sensor._name := "Capacity";
     X720Sensor.temp_unit := "%";
     X720Sensor.type := SENSOR_CAPACITY;
     X720Sensor._state := StNone;
     X720Sensor._unit_of_measurement := "%" |}.

(** A gauge that reports 0 V and 50 %: it answers zero on the voltage
    register and 0x0032 on every other one. *)
Definition flat_cell_bus : bus :=
  fun _ _ reg => if reg =? 2 then Word 0 else Word 0x0032.

(** * Properties *)

(** ** Byte swap *)

Section ByteSwap.

Lemma lor_shiftl_8 (a b : Z) :
  0 <= a < 256 -> 0 <= b -> Z.lor a (Z.shiftl b 8) = a + 256 * b.
Proof.
  intros Ha Hb.
  assert (Hdisj : Z.land a (Z.shiftl b 8) = 0).
  { apply Z.bits_inj'. intros n Hn.
    rewrite Z.land_spec, Z.bits_0.
    destruct (Z.ltb_spec n 8) as [Hlt | Hge].
    - rewrite (Z.shiftl_spec_low b 8 n Hlt). apply andb_false_r.
    - replace (Z.testbit a n) with false; [reflexivity |].
      symmetry. destruct (Z.eq_dec a 0) as [-> | Hnz]; [apply Z.bits_0 |].
      apply Z.bits_above_log2; [lia |].
      apply Z.log2_lt_pow2; [lia |].
      apply Z.lt_le_trans with (2 ^ 8); [simpl; lia |].
      apply Z.pow_le_mono_r; lia. }
  rewrite <- Z.lxor_lor by exact Hdisj.
  rewrite <- Z.add_nocarry_lxor by exact Hdisj.
  rewrite Z.shiftl_mul_pow2 by lia. change (2 ^ 8) with 256. lia.
Qed.

Lemma land_255 (w : Z) : Z.land w 255 = w mod 256.
Proof. change 255 with (Z.ones 8). rewrite Z.land_ones by lia. reflexivity. Qed.

Lemma shiftr_8 (w : Z) : Z.shiftr w 8 = w / 256.
Proof. rewrite Z.shiftr_div_pow2 by lia. reflexivity. Qed.

(** On an unsigned 16-bit word the conversion exchanges the two bytes. *)
Lemma swap16_u16 (w : Z) :
  0 <= w < 65536 -> swap16 w = Some (w / 256 + 256 * (w mod 256)).
Proof.
  intros Hw. unfold swap16, byteswap, pack_be_H, bind.
  replace ((0 <=? w) && (w <=? 65535)) with true
    by (symmetry; apply andb_true_iff; split; apply Z.leb_le; lia).
  cbv beta iota delta [ret unpack_le_H].
  rewrite land_255, shiftr_8.
  rewrite lor_shiftl_8; [reflexivity | |].
  - split; [apply Z.div_pos; lia | apply Z.div_lt_upper_bound; lia].
  - apply Z.mod_pos_bound. lia.
Qed.

(** Outside the unsigned 16-bit range [struct.pack] raises. *)
Lemma swap16_out_of_range (w : Z) :
  ~ 0 <= w < 65536 -> swap16 w = None.
Proof.
  intros Hw. unfold swap16, byteswap, pack_be_H, bind.
  replace ((0 <=? w) && (w <=? 65535)) with false; [reflexivity |].
  symmetry. apply andb_false_iff.
  destruct (Z.leb_spec 0 w); [right; apply Z.leb_gt; lia | left; reflexivity].
Qed.

Lemma swap16_range (w v : Z) :
  swap16 w = Some v -> 0 <= w < 65536 /\ 0 <= v < 65536.
Proof.
  intros H.
  assert (Hw : 0 <= w < 65536).
  { destruct (Z_le_dec 0 w) as [H0 | H0];
      [destruct (Z_lt_dec w 65536) as [H1 | H1]; [lia |] |];
      rewrite swap16_out_of_range in H by lia; discriminate. }
  split; [exact Hw |].
  rewrite swap16_u16 in H by exact Hw.
  assert (Hv : v = w / 256 + 256 * (w mod 256)) by congruence.
  subst v.
  pose proof (Z.mod_pos_bound w 256 ltac:(lia)).
  assert (0 <= w / 256 < 256)
    by (split; [apply Z.div_pos; lia | apply Z.div_lt_upper_bound; lia]).
  lia.
Qed.

(** The monadic [byteswap] leaves the state alone and agrees with
    [swap16]. *)
Lemma byteswap_swap16 {S} (w : Z) (s : S) :
  byteswap w s =
  (match swap16 w with Some v => Ok v | None => Raise StructError end, s).
Proof.
  unfold swap16, byteswap, pack_be_H, bind.
  destruct ((0 <=? w) && (w <=? 65535)); reflexivity.
Qed.

End ByteSwap.

(** C6. The 16-bit byte swap of the register conversion is an involution:
    on every unsigned 16-bit word [w] it yields a 16-bit word, and swapping
    that word again gives back [w]. *)
Theorem C6_byteswap_involutive (w : Z) :
  0 <= w < 65536 ->
  exists v, swap16 w = Some v /\ 0 <= v < 65536 /\ swap16 v = Some w.
Proof.
  intros Hw. exists (w / 256 + 256 * (w mod 256)).
  pose proof (swap16_u16 w Hw) as Hs.
  destruct (swap16_range _ _ Hs) as [_ Hv].
  split; [exact Hs |]. split; [exact Hv |].
  rewrite swap16_u16 by exact Hv. f_equal.
  pose proof (Z.div_mod w 256 ltac:(lia)) as Hdm.
  pose proof (Z.mod_pos_bound w 256 ltac:(lia)) as Hlo.
  assert (Hhi : 0 <= w / 256 < 256)
    by (split; [apply Z.div_pos; lia | apply Z.div_lt_upper_bound; lia]).
  revert Hdm Hlo Hhi.
  generalize (w / 256) as hi, (w mod 256) as lo. intros hi lo Hdm Hlo Hhi.
  assert (Ediv : (hi + 256 * lo) / 256 = lo).
  { replace (hi + 256 * lo) with (lo * 256 + hi) by lia.
    rewrite Z.div_add_l, Z.div_small by lia. lia. }
  assert (Emod : (hi + 256 * lo) mod 256 = hi).
  { replace (256 * lo) with (lo * 256) by lia.
    rewrite Z.mod_add, Z.mod_small by lia. reflexivity. }
  rewrite Ediv, Emod. lia.
Qed.

Lemma C6_byteswap_involutive_witness :
  0 <= 0x1234 < 65536 /\
  exists v, swap16 0x1234 = Some v /\ 0 <= v < 65536 /\ swap16 v = Some 0x1234.
Proof. split; [lia | apply (C6_byteswap_involutive 0x1234); lia]. Defined.

(** ** The read cycle *)

Section ReadCycle.

Variables (self : X720.t) (h : history).

(** Every run of [get_sensor_data] is one of the five cycles. *)
Lemma get_sensor_data_cycle :
  read_cycle self h (X720.get_sensor_data (self, h)).
Proof.
  unfold X720.get_sensor_data, X720.self_read, X720.set_data.
  unfold bind at 1. unfold bind at 1. cbn [get fst io read_word_data].
  destruct (X720._i2c self h (X720.i2c_addr self) 2) as [w2 | e] eqn:R2.
  2: { apply cycle_voltage_fault. exact R2. }
  unfold bind at 1. rewrite byteswap_swap16.
  destruct (swap16 w2) as [v2 |] eqn:S2.
  2: { apply cycle_voltage_range; assumption. }
  unfold bind at 1. cbn [modify].
  unfold bind at 1. unfold bind at 1.
  cbn [get fst io read_word_data X720.with_data X720._i2c X720.i2c_addr].
  destruct (X720._i2c self (h ++ [EvRead (X720.i2c_addr self) 2 (Word w2)])
              (X720.i2c_addr self) 4) as [w4 | e] eqn:R4.
  2: { rewrite <- app_assoc. cbn [app].
       apply (cycle_capacity_fault self h w2 v2 e); assumption. }
  unfold bind at 1. rewrite byteswap_swap16.
  destruct (swap16 w4) as [v4 |] eqn:S4.
  2: { rewrite <- app_assoc. cbn [app].
       apply (cycle_capacity_range self h w2 v2 w4); assumption. }
  unfold bind, modify, ret. rewrite <- app_assoc. cbn [app].
  apply (cycle_complete self h w2 v2 w4 v4); assumption.
Qed.

End ReadCycle.

(** What every cycle has in common: it only appends bus reads to the
    history, and it leaves the address, the bus handle and the [status] and
    [capacity]-on-failure attributes of the device object alone. *)
Lemma read_cycle_frame (self : X720.t) (h : history) r self' h' :
  read_cycle self h (r, (self', h')) ->
  (exists evs, h' = h ++ evs /\ Forall is_read evs /\ evs <> []) /\
  X720._i2c self' = X720._i2c self /\
  X720.i2c_addr self' = X720.i2c_addr self /\
  FieldData.status (X720.data self') = FieldData.status (X720.data self) /\
  (returned r = false ->
   FieldData.capacity (X720.data self') = FieldData.capacity (X720.data self)).
Proof.
  intros C. inversion C; subst; cbn;
    (split; [eexists; split; [reflexivity |];
             split; [repeat constructor | discriminate] |]);
    repeat split; auto; discriminate.
Qed.

(** A cycle that returns has read two words and stored their conversions. *)
Lemma read_cycle_returns (self : X720.t) (h : history) b self' h' :
  read_cycle self h (Ok b, (self', h')) ->
  b = true /\
  exists w2 v2 w4 v4,
    swap16 w2 = Some v2 /\ swap16 w4 = Some v4 /\
    h' = h ++ [EvRead (X720.i2c_addr self) 2 (Word w2);
               EvRead (X720.i2c_addr self) 4 (Word w4)] /\
    FieldData.voltage (X720.data self') = PyFloat (voltage_of v2) /\
    FieldData.capacity (X720.data self') = PyFloat (capacity_of v4).
Proof.
  intros C. inversion C; subst. split; [reflexivity |].
  exists w2, v2, w4, v4. cbn. repeat split; assumption.
Qed.

(** ** [update] in terms of read cycles *)

Section Update.

Variables (hd : X720Handler.t) (h : history).

Lemma update_refresh :
  X720Handler.update false (hd, h) =
  match X720.get_sensor_data (X720Handler._sensor hd, h) with
  | (Ok true, (s', h')) => (Ok tt, (caching s', h'))
  | (Ok false, (s', h')) => (Ok tt, (X720Handler.with_sensor s' hd, h'))
  | (Raise e, (s', h')) => (Raise e, (X720Handler.with_sensor s' hd, h'))
  end.
Proof.
  unfold X720Handler.update, X720Handler.on_sensor.
  unfold bind at 1. unfold ret at 1. unfold bind at 1.
  destruct (X720.get_sensor_data (X720Handler._sensor hd, h))
    as [[[|] | e] [s' h']]; reflexivity.
Qed.

Lemma update_first_read :
  X720Handler.update true (hd, h) =
  match X720.get_sensor_data (X720Handler._sensor hd, h) with
  | (Ok _, (s', h')) =>
      X720Handler.update false (X720Handler.with_sensor s' hd, h')
  | (Raise e, (s', h')) => (Raise e, (X720Handler.with_sensor s' hd, h'))
  end.
Proof.
  unfold X720Handler.update, X720Handler.on_sensor.
  unfold bind at 1. unfold bind at 1.
  destruct (X720.get_sensor_data (X720Handler._sensor hd, h))
    as [[b | e] [s' h']]; reflexivity.
Qed.

End Update.

Lemma refresh_effect hd h r hd' h' :
  X720Handler.update false (hd, h) = (r, (hd', h')) ->
  update_effect hd h r hd' h'.
Proof.
  rewrite update_refresh.
  pose proof (get_sensor_data_cycle (X720Handler._sensor hd) h) as C.
  destruct (X720.get_sensor_data (X720Handler._sensor hd, h))
    as [[b | e] [s1 h1]].
  - destruct (read_cycle_frame _ _ _ _ _ C) as (Hev & Hbus & Haddr & _).
    destruct (read_cycle_returns _ _ _ _ _ C)
      as (-> & w2 & v2 & w4 & v4 & S2 & S4 & Hh & Hv & Hc).
    intros E. injection E as <- <- <-.
    split; [exact Hev |]. split; [exact Hbus |]. split; [exact Haddr |].
    exists [], w2, v2, w4, v4. cbn [app caching X720Handler.sensor_data].
    rewrite Hv, Hc. repeat split; assumption.
  - destruct (read_cycle_frame _ _ _ _ _ C) as (Hev & Hbus & Haddr & _).
    intros E. injection E as <- <- <-.
    split; [exact Hev |]. split; [exact Hbus |]. split; [exact Haddr |].
    reflexivity.
Qed.

Lemma update_has_effect first_read hd h r hd' h' :
  X720Handler.update first_read (hd, h) = (r, (hd', h')) ->
  update_effect hd h r hd' h'.
Proof.
  destruct first_read; [| apply refresh_effect].
  rewrite update_first_read.
  pose proof (get_sensor_data_cycle (X720Handler._sensor hd) h) as C.
  destruct (X720.get_sensor_data (X720Handler._sensor hd, h))
    as [[b | e] [s1 h1]];
    destruct (read_cycle_frame _ _ _ _ _ C)
      as ((evs1 & -> & Hr1 & Hne1) & Hbus & Haddr & _).
  - intros E. apply refresh_effect in E.
    destruct E as ((evs2 & -> & Hr2 & _) & Hbus2 & Haddr2 & Hres).
    cbn [X720Handler.with_sensor X720Handler._sensor
         X720Handler.sensor_data] in *.
    split.
    { exists (evs1 ++ evs2). rewrite app_assoc.
      split; [reflexivity |]. split; [apply Forall_app; split; assumption |].
      destruct evs1; [contradiction | discriminate]. }
    split; [congruence |]. split; [congruence |].
    destruct r as [u | e]; [| exact Hres].
    destruct Hres as (pre & w2 & v2 & w4 & v4 & S2 & S4 & Hh & Hsd).
    exists (evs1 ++ pre), w2, v2, w4, v4.
    rewrite <- Haddr, Hh, <- !app_assoc. repeat split; assumption.
  - intros E. injection E as <- <- <-.
    split; [exists evs1; repeat split; assumption |].
    split; [exact Hbus |]. split; [exact Haddr |]. reflexivity.
Qed.

(** ** The cache over a sequence of calls *)

Lemma from_cycle_is_reading (evs : history) (d : X720Handler.SensorData.t) :
  from_cycle evs d -> is_reading d.
Proof.
  intros (pre & post & a & w2 & w4 & v2 & v4 & _ & _ & _ & ->).
  eexists _, _. reflexivity.
Qed.

Lemma from_cycle_app (before evs after : history)
      (d : X720Handler.SensorData.t) :
  from_cycle evs d -> from_cycle (before ++ evs ++ after) d.
Proof.
  intros (pre & post & a & w2 & w4 & v2 & v4 & -> & S2 & S4 & ->).
  exists (before ++ pre), (post ++ after), a, w2, w4, v2, v4.
  repeat split; try assumption.
  rewrite <- !app_assoc. cbn [app]. reflexivity.
Qed.

Lemma update_returned_from_cycle first_read hd h u hd' h' :
  X720Handler.update first_read (hd, h) = (Ok u, (hd', h')) ->
  exists evs, h' = h ++ evs /\ from_cycle evs (X720Handler.sensor_data hd').
Proof.
  intros E. apply update_has_effect in E.
  destruct E as (_ & _ & _ & pre & w2 & v2 & w4 & v4 & S2 & S4 & -> & ->).
  eexists. split; [reflexivity |].
  exists pre, [], (X720.i2c_addr (X720Handler._sensor hd)), w2, w4, v2, v4.
  repeat split; assumption.
Qed.

Lemma update_raised_keeps_cache first_read hd h e hd' h' :
  X720Handler.update first_read (hd, h) = (Raise e, (hd', h')) ->
  (exists evs, h' = h ++ evs) /\
  X720Handler.sensor_data hd' = X720Handler.sensor_data hd.
Proof.
  intros E. apply update_has_effect in E.
  destruct E as ((evs & -> & _) & _ & _ & Hsd).
  split; [eexists; reflexivity | exact Hsd].
Qed.

(** After any sequence of calls: when some call returned, the cache is the
    pair converted from one read cycle performed by the sequence; when every
    call raised, it is the cache the sequence started with. *)
Lemma run_updates_effect (ops : list bool) :
  forall hd h rs hd' h',
    run_updates ops (hd, h) = (rs, (hd', h')) ->
    List.length rs = List.length ops /\
    exists evs,
      h' = h ++ evs /\
      if existsb returned rs
      then from_cycle evs (X720Handler.sensor_data hd')
      else X720Handler.sensor_data hd' = X720Handler.sensor_data hd.
Proof.
  induction ops as [| first_read ops IH]; intros hd h rs hd' h' E.
  - injection E as <- <- <-. split; [reflexivity |].
    exists []. rewrite app_nil_r. split; reflexivity.
  - cbn [run_updates] in E.
    destruct (X720Handler.update first_read (hd, h)) as [r [hd1 h1]] eqn:U.
    destruct (run_updates ops (hd1, h1)) as [rs1 [hd2 h2]] eqn:R.
    injection E as <- <- <-.
    destruct (IH _ _ _ _ _ R) as (Hlen & evs2 & -> & Hrest).
    split; [cbn [List.length]; congruence |].
    cbn [existsb]. destruct r as [u | e]; cbn [returned orb].
    + destruct (update_returned_from_cycle _ _ _ _ _ _ U) as (evs1 & -> & Hc).
      exists (evs1 ++ evs2). rewrite app_assoc. split; [reflexivity |].
      destruct (existsb returned rs1).
      * rewrite <- (app_nil_r evs2). apply (from_cycle_app evs1 evs2 []).
        exact Hrest.
      * rewrite Hrest. apply (from_cycle_app [] evs1 evs2). exact Hc.
    + destruct (update_raised_keeps_cache _ _ _ _ _ _ U) as ((evs1 & ->) & Hsd).
      exists (evs1 ++ evs2). rewrite app_assoc. split; [reflexivity |].
      destruct (existsb returned rs1).
      * rewrite <- (app_nil_r evs2). apply (from_cycle_app evs1 evs2 []).
        exact Hrest.
      * congruence.
Qed.

(** C8. The cache of the handler is [None] only before the first read
    cycle that returns, and never reverts to [None]:
    - it is created with both attributes [None];
    - a single [update], with or without the throwaway read, either returns
      and leaves a reading in the cache, or raises and leaves the cache as
      it was;
    - over any sequence of [update] calls, a cache that held a reading at
      the start holds a reading at the end, and a cache that started as
      created holds a reading at the end as soon as one call returned and
      is unchanged when every call raised. *)
Theorem C8_cache_never_reverts_to_None :
  X720Handler.SensorData.__init__
  = {| X720Handler.SensorData.voltage := PyNone;
       X720Handler.SensorData.capacity := PyNone |} /\
  (forall first_read hd h,
      match X720Handler.update first_read (hd, h) with
      | (Ok _, (hd', _)) => is_reading (X720Handler.sensor_data hd')
      | (Raise _, (hd', _)) =>
          X720Handler.sensor_data hd' = X720Handler.sensor_data hd
      end) /\
  (forall ops hd h,
      match run_updates ops (hd, h) with
      | (rs, (hd', _)) =>
          (is_reading (X720Handler.sensor_data hd) ->
           is_reading (X720Handler.sensor_data hd')) /\
          (X720Handler.sensor_data hd = X720Handler.SensorData.__init__ ->
           if existsb returned rs
           then is_reading (X720Handler.sensor_data hd')
           else X720Handler.sensor_data hd' = X720Handler.SensorData.__init__)
      end).
Proof.
  split; [reflexivity |]. split.
  - intros first_read hd h.
    destruct (X720Handler.update first_read (hd, h))
      as [[u | e] [hd' h']] eqn:U.
    + destruct (update_returned_from_cycle _ _ _ _ _ _ U) as (evs & _ & Hc).
      exact (from_cycle_is_reading _ _ Hc).
    + exact (proj2 (update_raised_keeps_cache _ _ _ _ _ _ U)).
  - intros ops hd h.
    destruct (run_updates ops (hd, h)) as [rs [hd' h']] eqn:R.
    destruct (run_updates_effect _ _ _ _ _ _ R) as (_ & evs & _ & Hcase).
    destruct (existsb returned rs).
    + pose proof (from_cycle_is_reading _ _ Hcase) as Hr.
      split; intros _; exact Hr.
    + rewrite Hcase. split; auto.
Qed.

(** A refresh that raises between two that return: the reading of the
    first survives the fault and is replaced by the third. *)
Example cache_survives_a_fault :
  match run_updates [false; false; false]
          (X720Handler.allocated
             (X720.allocated 0x36 (faulty_bus 2 IOError 0x800C)), []) with
  | (rs, (hd', _)) =>
      rs = [Ok tt; Raise IOError; Ok tt] /\
      X720Handler.sensor_data hd'
      = reading 0.25 12.5
  end /\
  match run_updates [false; false]
          (X720Handler.allocated
             (X720.allocated 0x36 (faulty_bus 2 IOError 0x800C)), []) with
  | (rs, (hd', _)) =>
      rs = [Ok tt; Raise IOError] /\
      X720Handler.sensor_data hd'
      = reading 0.25 12.5
  end /\
  match run_updates [false]
          (X720Handler.allocated
             (X720.allocated 0x36 (faulty_bus 0 IOError 0x800C)), []) with
  | (rs, (hd', _)) =>
      rs = [Raise IOError] /\
      X720Handler.sensor_data hd' = X720Handler.SensorData.__init__
  end.
Proof. repeat split; reflexivity. Qed.

(** C10. In the cache of the handler the two attributes change together:
    start from a cache as created and run any sequence of [update] calls
    none of which raises; then the cache is still [None]/[None] when the
    sequence is empty, and otherwise its voltage and capacity are the
    conversions of the two words of one and the same read cycle performed
    by the sequence (a read of register 2 directly followed by a read of
    register 4). *)
Theorem C10_cache_fields_from_one_cycle :
  forall ops hd h rs hd' h',
    X720Handler.sensor_data hd = X720Handler.SensorData.__init__ ->
    run_updates ops (hd, h) = (rs, (hd', h')) ->
    forallb returned rs = true ->
    (ops = [] /\
     X720Handler.sensor_data hd' = X720Handler.SensorData.__init__) \/
    (ops <> [] /\
     exists evs, h' = h ++ evs /\
                 from_cycle evs (X720Handler.sensor_data hd')).
Proof.
  intros ops hd h rs hd' h' Hfresh R Hall.
  destruct (run_updates_effect _ _ _ _ _ _ R) as (Hlen & evs & Hh & Hcase).
  destruct ops as [| first_read ops].
  - left. destruct rs; [| discriminate Hlen].
    cbn [existsb] in Hcase. split; congruence.
  - right. split; [discriminate |].
    destruct rs as [| r rs]; [discriminate Hlen |].
    cbn [forallb] in Hall. apply andb_true_iff in Hall as [Hr _].
    cbn [existsb] in Hcase. rewrite Hr in Hcase. cbn [orb] in Hcase.
    exists evs. split; assumption.
Qed.

Lemma C10_cache_fields_from_one_cycle_witness :
  exists rs hd' h',
    X720Handler.sensor_data
      (X720Handler.allocated (X720.allocated 0x36 (steady_bus 0x800C)))
    = X720Handler.SensorData.__init__ /\
    run_updates [true; false]
      (X720Handler.allocated (X720.allocated 0x36 (steady_bus 0x800C)), [])
    = (rs, (hd', h')) /\
    forallb returned rs = true /\
    (([true; false] = [] /\
      X720Handler.sensor_data hd' = X720Handler.SensorData.__init__) \/
     ([true; false] <> [] /\
      exists evs, h' = [] ++ evs /\
                  from_cycle evs (X720Handler.sensor_data hd'))).
Proof.
  eexists _, _, _.
  split; [reflexivity |]. split; [reflexivity |]. split; [reflexivity |].
  exact (C10_cache_fields_from_one_cycle [true; false]
           (X720Handler.allocated (X720.allocated 0x36 (steady_bus 0x800C))) []
           _ _ _ eq_refl eq_refl eq_refl).
Defined.

(** ** Conversion of a read cycle *)

(** C5. A refresh reads register 2 and then register 4 of the device; for
    unsigned 16-bit words [w2] and [w4] it swaps the two bytes of each and
    caches [v * 1.25 / 1000 / 16] volts and [v / 256] percent, computed in
    binary64 with no clamping and no rounding call.  A raw zero gives
    voltage 0.0 and capacity 0.0, the corrected value 3200 gives 0.25 V and
    the corrected value 12800 gives 50.0 %. *)
Theorem C5_refresh_converts_registers :
  forall (hd : X720Handler.t) (h : history) (w2 w4 : Z),
    let s := X720Handler._sensor hd in
    let a := X720.i2c_addr s in
    let v2 := w2 / 256 + 256 * (w2 mod 256) in
    let v4 := w4 / 256 + 256 * (w4 mod 256) in
    0 <= w2 < 65536 ->
    0 <= w4 < 65536 ->
    X720._i2c s h a 2 = Word w2 ->
    X720._i2c s (h ++ [EvRead a 2 (Word w2)]) a 4 = Word w4 ->
    (swap16 w2 = Some v2 /\ swap16 w4 = Some v4) /\
    (exists hd',
        X720Handler.update false (hd, h)
        = (Ok tt, (hd', h ++ [EvRead a 2 (Word w2); EvRead a 4 (Word w4)])) /\
        X720Handler.sensor_data hd'
        = reading (float_of_int v2 * 1.25 / 1000 / 16)%float
                  (float_of_int v4 / 256)%float) /\
    (swap16 0 = Some 0 /\
     (float_of_int 0 * 1.25 / 1000 / 16 = 0)%float /\
     (float_of_int 0 / 256 = 0)%float) /\
    (float_of_int 3200 * 1.25 / 1000 / 16 = 0.25)%float /\
    (float_of_int 12800 / 256 = 50)%float.
Proof.
  intros hd h w2 w4 s a v2 v4 Hw2 Hw4 R2 R4.
  pose proof (swap16_u16 w2 Hw2) as S2. pose proof (swap16_u16 w4 Hw4) as S4.
  split; [split; assumption |].
  split; [| repeat split; reflexivity].
  rewrite update_refresh.
  pose proof (get_sensor_data_cycle s h) as C. fold s.
  inversion C as [e R | w R S | w v e R S R' | w v w' R S R' S'
                  | w v w' v' R S R' S' E];
    fold a in R; rewrite R2 in R; try discriminate R;
    injection R as <-; rewrite S2 in S; try discriminate S;
    injection S as <-; fold a in R'; rewrite R4 in R'; try discriminate R';
    injection R' as <-; rewrite S4 in S'; try discriminate S'.
  injection S' as <-.
  eexists. split; [reflexivity |]. reflexivity.
Qed.

Lemma C5_refresh_converts_registers_witness :
  (0 <= 0x800C < 65536 /\ 0 <= 0x0032 < 65536) /\
  exists hd',
    X720Handler.update false
      (X720Handler.allocated (X720.allocated 0x36
          (fun _ _ reg => if reg =? 2 then Word 0x800C else Word 0x0032)), [])
    = (Ok tt, (hd', [EvRead 0x36 2 (Word 0x800C); EvRead 0x36 4 (Word 0x0032)]))
    /\
    X720Handler.sensor_data hd'
    = reading 0.25 50.
Proof.
  split; [lia |].
  exact (proj1 (proj2
    (C5_refresh_converts_registers
       (X720Handler.allocated (X720.allocated 0x36
          (fun _ _ reg => if reg =? 2 then Word 0x800C else Word 0x0032)))
       [] 0x800C 0x0032
       ltac:(lia) ltac:(lia) eq_refl eq_refl))).
Defined.

(** ** Bus faults *)

(** A bus fault in either transaction of a cycle is what the cycle raises. *)
Lemma cycle_fault_raises (self : X720.t) (h : history) (e : exn) :
  cycle_fault self h e ->
  exists self' h',
    X720.get_sensor_data (self, h) = (Raise e, (self', h')) /\
    FieldData.capacity (X720.data self')
    = FieldData.capacity (X720.data self) /\
    (X720._i2c self h (X720.i2c_addr self) 2 = Fault e -> self' = self).
Proof.
  intros F. pose proof (get_sensor_data_cycle self h) as C.
  destruct F as [R2 | (w2 & Hw2 & R2 & R4)].
  - inversion C as [e' R | w R S | w v e' R S R' | w v w' R S R' S'
                    | w v w' v' R S R' S'];
      rewrite R2 in R; try discriminate R.
    injection R as <-. eexists _, _. repeat split; reflexivity.
  - pose proof (swap16_u16 w2 Hw2) as S2.
    inversion C as [e' R | w R S | w v e' R S R' | w v w' R S R' S'
                    | w v w' v' R S R' S'];
      rewrite R2 in R; try discriminate R;
      injection R as <-; rewrite S2 in S; try discriminate S;
      injection S as <-; rewrite R4 in R'; try discriminate R'.
    injection R' as <-. eexists _, _.
    split; [reflexivity |]. split; [reflexivity |].
    intros R. rewrite R2 in R. discriminate R.
Qed.

(** C9. [get_sensor_data] returns [True] whenever it returns: no
    invocation returns [False], and a bus fault in either transaction comes
    out as the raised exception. *)
Theorem C9_get_sensor_data_returns_only_True :
  forall (self : X720.t) (h : history),
    (forall b st, X720.get_sensor_data (self, h) = (Ok b, st) -> b = true) /\
    fst (X720.get_sensor_data (self, h)) <> Ok false /\
    (forall e, cycle_fault self h e ->
               fst (X720.get_sensor_data (self, h)) = Raise e).
Proof.
  intros self h.
  assert (Hret : forall b st,
             X720.get_sensor_data (self, h) = (Ok b, st) -> b = true).
  { intros b [self' h'] E.
    pose proof (get_sensor_data_cycle self h) as C. rewrite E in C.
    exact (proj1 (read_cycle_returns _ _ _ _ _ C)). }
  split; [exact Hret |]. split.
  - intros E.
    destruct (X720.get_sensor_data (self, h)) as [r st].
    cbn [fst] in E. subst r.
    specialize (Hret false st eq_refl). discriminate Hret.
  - intros e F. destruct (cycle_fault_raises _ _ _ F) as (self' & h' & -> & _).
    reflexivity.
Qed.

(** Both outcomes of [get_sensor_data] occur. *)
Example get_sensor_data_returns :
  fst (X720.get_sensor_data (X720.allocated 0x36 (steady_bus 0x1234), []))
  = Ok true.
Proof. reflexivity. Qed.

Example get_sensor_data_raises :
  cycle_fault (X720.allocated 0x36 (faulty_bus 1 IOError 0x800C)) [] IOError /\
  fst (X720.get_sensor_data
         (X720.allocated 0x36 (faulty_bus 1 IOError 0x800C), []))
  = Raise IOError.
Proof.
  split; [| reflexivity].
  right. exists 0x800C. split; [lia |]. split; reflexivity.
Qed.

(** C2, for the cache of the handler.  When the bus raises [e] in either
    transaction of a refresh, the refresh fails with that same [e] and the
    cache of the handler keeps both attributes.  The record of the device
    object is another matter: its capacity is kept, and it is wholly
    unchanged when the fault is on the voltage register; nothing is
    promised about its voltage when the fault is on the capacity
    register. *)
Theorem C2_bus_fault_keeps_handler_cache :
  forall (hd : X720Handler.t) (h : history) (e : exn),
    cycle_fault (X720Handler._sensor hd) h e ->
    match X720Handler.update false (hd, h) with
    | (r, (hd', _)) =>
        r = Raise e /\
        X720Handler.sensor_data hd' = X720Handler.sensor_data hd /\
        FieldData.capacity (X720.data (X720Handler._sensor hd'))
        = FieldData.capacity (X720.data (X720Handler._sensor hd)) /\
        (X720._i2c (X720Handler._sensor hd) h
                   (X720.i2c_addr (X720Handler._sensor hd)) 2 = Fault e ->
         hd' = hd)
    end.
Proof.
  intros hd h e F.
  destruct (cycle_fault_raises _ _ _ F) as (s' & h' & E & Hcap & Hsame).
  rewrite update_refresh, E. cbn [X720Handler.with_sensor
    X720Handler.sensor_data X720Handler._sensor].
  repeat split; try assumption.
  intros R. rewrite (Hsame R). destruct hd; reflexivity.
Qed.

Lemma C2_bus_fault_keeps_handler_cache_witness :
  cycle_fault (serving_sensor (faulty_bus 1 IOError 0x800C)) [] IOError /\
  match X720Handler.update false
          (serving_handler (faulty_bus 1 IOError 0x800C), []) with
  | (r, (hd', _)) =>
      r = Raise IOError /\
      X720Handler.sensor_data hd'
      = reading 4 90 /\
      FieldData.capacity (X720.data (X720Handler._sensor hd')) = PyFloat 90 /\
      (faulty_bus 1 IOError 0x800C [] DEFAULT_I2C_ADDRESS 2 = Fault IOError ->
       hd' = serving_handler (faulty_bus 1 IOError 0x800C))
  end.
Proof.
  assert (F : cycle_fault (serving_sensor (faulty_bus 1 IOError 0x800C)) []
                          IOError).
  { right. exists 0x800C. split; [lia |]. split; reflexivity. }
  split; [exact F |].
  exact (C2_bus_fault_keeps_handler_cache
           (serving_handler (faulty_bus 1 IOError 0x800C)) [] IOError F).
Defined.

(** The specification extends the all-or-nothing rule to every stored copy
    of the reading.  On the record of the device object it fails: a fault
    on the capacity register arrives after the new voltage has been
    stored. *)
Lemma C2_counterexample_device_record_half_updated :
  cycle_fault (serving_sensor (faulty_bus 1 IOError 0x800C)) [] IOError /\
  match X720Handler.update false
          (serving_handler (faulty_bus 1 IOError 0x800C), []) with
  | (r, (hd', _)) =>
      r = Raise IOError /\
      X720.data (X720Handler._sensor hd')
      = {| FieldData.status := PyNone;
           FieldData.voltage := PyFloat 0.25;
           FieldData.capacity := PyFloat 90 |} /\
      X720.data (X720Handler._sensor hd')
      <> X720.data (serving_sensor (faulty_bus 1 IOError 0x800C))
  end.
Proof.
  split.
  { right. exists 0x800C. split; [lia |]. split; reflexivity. }
  cbv beta iota delta -[not]. split; [reflexivity |]. split; [reflexivity |].
  intros E. discriminate E.
Qed.

(** ** Constructors and set-up in terms of read cycles *)

Lemma X720_init_cycle smbus (addr : Z) (b : bus) (h : history) :
  X720.__init__ smbus addr (Some b) h =
  match X720.get_sensor_data (X720.allocated addr b, h) with
  | (Ok _, (self, h')) => (Ok self, h')
  | (Raise e, (_, h')) => (Raise e, h')
  end.
Proof.
  unfold X720.__init__, construct, X720.allocated.
  unfold bind at 1. unfold ret at 1. unfold bind at 1.
  destruct (X720.get_sensor_data _) as [[ok | e] [self h']]; reflexivity.
Qed.

Lemma X720Handler_init_update (sensor : X720.t) (h : history) :
  X720Handler.__init__ sensor h =
  match X720Handler.update true (X720Handler.allocated sensor, h) with
  | (Ok _, (self, h')) => (Ok self, h')
  | (Raise e, (_, h')) => (Raise e, h')
  end.
Proof. reflexivity. Qed.

Lemma setup_steps (b : bus) (cfg : config) (h : history) :
  _setup_x720 (open_bus b) cfg h =
  match X720.__init__ (open_bus b) (CONF_I2C_ADDRESS cfg) (Some b) h with
  | (Ok sensor, h1) =>
      match X720Handler.__init__ sensor h1 with
      | (Ok sensor_handler, h2) =>
          if truthy (X720Handler.SensorData.voltage
                       (X720Handler.sensor_data sensor_handler))
          then (Ok (Some sensor_handler), h2 ++ [EvSleep 0.5])
          else (Ok None,
                h2 ++ [EvSleep 0.5;
                       EvLogError "X720 sensor failed to Initialize" []])
      | (Raise e, h2) => (Raise e, h2)
      end
  | (Raise e, h1) =>
      if RuntimeError_or_IOError e
      then (Ok None,
            h1 ++ [EvLogError "X720 sensor not detected at 0x%02x"
                              [CONF_I2C_ADDRESS cfg]])
      else (Raise e, h1)
  end.
Proof.
  unfold _setup_x720. unfold bind at 1. unfold try_except.
  unfold bind at 1. unfold open_bus at 1. unfold ret at 1.
  unfold bind at 1.
  destruct (X720.__init__ (open_bus b) (CONF_I2C_ADDRESS cfg) (Some b) h)
    as [[sensor | e] h1].
  - unfold ret at 1. unfold bind at 1.
    destruct (X720Handler.__init__ sensor h1) as [[hd | e] h2];
      [| reflexivity].
    unfold bind at 1. unfold sleep, emit, modify.
    destruct (truthy _); cbn [negb]; [reflexivity |].
    unfold bind, log_error, emit, modify, ret.
    rewrite <- app_assoc. reflexivity.
  - destruct (RuntimeError_or_IOError e); reflexivity.
Qed.

(** A refresh that returns has run exactly one complete read cycle. *)
Lemma refresh_returns hd h u hd' h' :
  X720Handler.update false (hd, h) = (Ok u, (hd', h')) ->
  exists w2 v2 w4 v4,
    swap16 w2 = Some v2 /\ swap16 w4 = Some v4 /\
    h' = h ++ [EvRead (X720.i2c_addr (X720Handler._sensor hd)) 2 (Word w2);
               EvRead (X720.i2c_addr (X720Handler._sensor hd)) 4 (Word w4)] /\
    X720Handler.sensor_data hd'
    = reading (voltage_of v2) (capacity_of v4).
Proof.
  rewrite update_refresh.
  pose proof (get_sensor_data_cycle (X720Handler._sensor hd) h) as C.
  destruct (X720.get_sensor_data (X720Handler._sensor hd, h))
    as [[b | e] [s1 h1]]; [| discriminate].
  destruct (read_cycle_returns _ _ _ _ _ C)
    as (-> & w2 & v2 & w4 & v4 & S2 & S4 & Hh & Hv & Hc).
  intros E. injection E as _ <- <-.
  exists w2, v2, w4, v4. cbn [caching X720Handler.sensor_data].
  split; [exact S2 |]. split; [exact S4 |]. split; [exact Hh |].
  rewrite Hv, Hc. reflexivity.
Qed.

(** A handler that gets constructed has run two complete read cycles and
    caches the second. *)
Lemma X720Handler_init_returns (sensor : X720.t) (h : history) hd h2 :
  X720Handler.__init__ sensor h = (Ok hd, h2) ->
  exists reads,
    h2 = h ++ reads /\ Forall is_read reads /\ List.length reads = 4%nat /\
    from_cycle reads (X720Handler.sensor_data hd).
Proof.
  rewrite X720Handler_init_update, update_first_read.
  cbn [X720Handler.allocated X720Handler._sensor].
  pose proof (get_sensor_data_cycle sensor h) as C1.
  destruct (X720.get_sensor_data (sensor, h)) as [[ok1 | e1] [s1 h1]];
    cbv beta iota; [| discriminate].
  destruct (read_cycle_returns _ _ _ _ _ C1)
    as (_ & w2 & v2 & w4 & v4 & _ & _ & -> & _).
  destruct (X720Handler.update false _) as [[u | e2] [hd2 h2']] eqn:U;
    [| discriminate].
  destruct (refresh_returns _ _ _ _ _ U)
    as (w2' & v2' & w4' & v4' & S2 & S4 & -> & Hsd).
  intros E. injection E as <- <-.
  rewrite <- app_assoc. eexists. split; [reflexivity |].
  split; [repeat constructor |]. split; [reflexivity |].
  rewrite Hsd.
  eexists [_; _], [], _, w2', w4', v2', v4'.
  repeat split; assumption.
Qed.

Lemma X720Handler_init_reads_only (sensor : X720.t) (h : history) r h2 :
  X720Handler.__init__ sensor h = (r, h2) ->
  exists evs, h2 = h ++ evs /\ Forall is_read evs.
Proof.
  rewrite X720Handler_init_update.
  destruct (X720Handler.update true (X720Handler.allocated sensor, h))
    as [r' [hd' h']] eqn:U.
  apply update_has_effect in U. destruct U as ((evs & -> & Hr & _) & _).
  intros E. exists evs. split; [| exact Hr].
  destruct r'; injection E as _ <-; reflexivity.
Qed.

(** The first transaction of a cycle is always issued, on register 2. *)
Lemma read_cycle_first_read (self : X720.t) (h : history) r self' h' :
  read_cycle self h (r, (self', h')) ->
  exists evs,
    h' = h ++ EvRead (X720.i2c_addr self) 2
                     (X720._i2c self h (X720.i2c_addr self) 2) :: evs.
Proof.
  intros C. inversion C as [e R | w R S | w v e R S R' | w v w' R S R' S'
                            | w v w' v' R S R' S'];
    subst; rewrite R; eexists; reflexivity.
Qed.

(** ** Construction *)

(** C4, with the first read.  Constructing the driver stores the address
    and the bus handle and then runs one read cycle: a transaction on
    register 2 is always issued; a bus fault in the cycle is raised by the
    constructor; and when both words convert, the constructor returns the
    driver with the handle, the address and the two converted values. *)
Theorem C4_construction_runs_a_read_cycle :
  forall (smbus : Z -> Exec history bus) (addr : Z) (b : bus) (h : history),
    (exists evs,
        snd (X720.__init__ smbus addr (Some b) h)
        = h ++ EvRead addr 2 (b h addr 2) :: evs) /\
    (forall e, cycle_fault (X720.allocated addr b) h e ->
               fst (X720.__init__ smbus addr (Some b) h) = Raise e) /\
    (forall w2 v2 w4 v4,
        b h addr 2 = Word w2 -> swap16 w2 = Some v2 ->
        b (h ++ [EvRead addr 2 (Word w2)]) addr 4 = Word w4 ->
        swap16 w4 = Some v4 ->
        X720.__init__ smbus addr (Some b) h
        = (Ok {| X720.data :=
                   {| FieldData.status := PyNone;
                      FieldData.voltage := PyFloat (voltage_of v2);
                      FieldData.capacity := PyFloat (capacity_of v4) |};
                 X720.i2c_addr := addr;
                 X720._i2c := b |},
           h ++ [EvRead addr 2 (Word w2); EvRead addr 4 (Word w4)])).
Proof.
  intros smbus addr b h. rewrite X720_init_cycle.
  pose proof (get_sensor_data_cycle (X720.allocated addr b) h) as C.
  split; [| split].
  - destruct (X720.get_sensor_data (X720.allocated addr b, h))
      as [r [s1 h1]].
    destruct (read_cycle_first_read _ _ _ _ _ C) as (evs & ->).
    exists evs. destruct r; reflexivity.
  - intros e F. destruct (cycle_fault_raises _ _ _ F) as (s1 & h1 & -> & _).
    reflexivity.
  - intros w2 v2 w4 v4 R2 S2 R4 S4.
    inversion C as [e R | w R S | w v e R S R' | w v w' R S R' S'
                    | w v w' v' R S R' S'];
      cbn [X720.allocated X720._i2c X720.i2c_addr] in R;
      rewrite R2 in R; try discriminate R;
      injection R as <-; rewrite S2 in S; try discriminate S;
      injection S as <-;
      cbn [X720.allocated X720._i2c X720.i2c_addr] in R';
      rewrite R4 in R'; try discriminate R';
      injection R' as <-; rewrite S4 in S'; try discriminate S'.
    injection S' as <-. reflexivity.
Qed.

(** The specification has construction do no bus I/O and never fail.  On a
    bus whose first transaction raises, the constructor has issued a read
    and it does not return. *)
Lemma C4_counterexample_construction_reads_and_raises :
  X720.__init__ no_bus DEFAULT_I2C_ADDRESS (Some (faulty_bus 0 IOError 0)) []
  = (Raise IOError, [EvRead DEFAULT_I2C_ADDRESS 2 (Fault IOError)]).
Proof. reflexivity. Qed.

(** A construction that returns, on a bus that delivers 0x800C and 0x0032. *)
Example construction_returns :
  X720.__init__ no_bus DEFAULT_I2C_ADDRESS
    (Some (fun _ _ reg => if reg =? 2 then Word 0x800C else Word 0x0032)) []
  = (Ok {| X720.data := {| FieldData.status := PyNone;
                           FieldData.voltage := PyFloat 0.25;
                           FieldData.capacity := PyFloat 50 |};
           X720.i2c_addr := DEFAULT_I2C_ADDRESS;
           X720._i2c :=
             fun _ _ reg => if reg =? 2 then Word 0x800C else Word 0x0032 |},
     [EvRead DEFAULT_I2C_ADDRESS 2 (Word 0x800C);
      EvRead DEFAULT_I2C_ADDRESS 4 (Word 0x0032)]).
Proof. reflexivity. Qed.

(** ** Initialisation *)

(** A handler that gets constructed has read four words, and its cache is
    the conversion of the last two. *)
Lemma X720Handler_init_last_cycle (sensor : X720.t) (h : history) hd h2 :
  X720Handler.__init__ sensor h = (Ok hd, h2) ->
  exists w3 w4 w5 v5 w6 v6,
    h2 = h ++ [EvRead (X720.i2c_addr sensor) 2 (Word w3);
               EvRead (X720.i2c_addr sensor) 4 (Word w4);
               EvRead (X720.i2c_addr sensor) 2 (Word w5);
               EvRead (X720.i2c_addr sensor) 4 (Word w6)] /\
    swap16 w5 = Some v5 /\ swap16 w6 = Some v6 /\
    X720Handler.sensor_data hd = reading (voltage_of v5) (capacity_of v6).
Proof.
  rewrite X720Handler_init_update, update_first_read.
  cbn [X720Handler.allocated X720Handler._sensor].
  pose proof (get_sensor_data_cycle sensor h) as C1.
  destruct (X720.get_sensor_data (sensor, h)) as [[ok1 | e1] [s1 h1]];
    cbv beta iota; [| discriminate].
  destruct (read_cycle_frame _ _ _ _ _ C1) as (_ & _ & Ha1 & _).
  destruct (read_cycle_returns _ _ _ _ _ C1)
    as (_ & w3 & v3 & w4 & v4 & _ & _ & -> & _).
  destruct (X720Handler.update false _) as [[u | e2] [hd2 h2']] eqn:U;
    [| discriminate].
  destruct (refresh_returns _ _ _ _ _ U)
    as (w5 & v5 & w6 & v6 & S5 & S6 & -> & Hsd).
  cbn [X720Handler.with_sensor X720Handler._sensor] in Hsd |- *.
  intros E. injection E as <- <-.
  exists w3, w4, w5, v5, w6, v6.
  rewrite Ha1, <- app_assoc. cbn [app].
  split; [reflexivity |]. split; [exact S5 |]. split; [exact S6 | exact Hsd].
Qed.

(** C7, with the cache as set-up leaves it.  When the driver and the
    handler get constructed and the cached voltage is falsy, [_setup_x720]
    sleeps, logs the failure and returns [None]: no handler reaches the
    host.  The cache of the handler it drops is not [None]: it holds the
    conversions of the two words of the last read cycle, the voltage word
    read on register 2 and the capacity word read on register 4 right after
    it; the voltage is zero, the capacity is whatever that cycle read. *)
Theorem C7_falsy_voltage_fails_setup :
  forall (b : bus) (cfg : config) (h : history) sensor h1 hd h2,
    X720.__init__ (open_bus b) (CONF_I2C_ADDRESS cfg) (Some b) h
    = (Ok sensor, h1) ->
    X720Handler.__init__ sensor h1 = (Ok hd, h2) ->
    truthy (X720Handler.SensorData.voltage (X720Handler.sensor_data hd))
    = false ->
    _setup_x720 (open_bus b) cfg h
    = (Ok None,
       h2 ++ [EvSleep 0.5;
              EvLogError "X720 sensor failed to Initialize" []]) /\
    X720Handler.sensor_data hd <> X720Handler.SensorData.__init__ /\
    exists w3 w4 w5 v5 w6 v6,
      h2 = h1 ++ [EvRead (CONF_I2C_ADDRESS cfg) 2 (Word w3);
                  EvRead (CONF_I2C_ADDRESS cfg) 4 (Word w4);
                  EvRead (CONF_I2C_ADDRESS cfg) 2 (Word w5);
                  EvRead (CONF_I2C_ADDRESS cfg) 4 (Word w6)] /\
      swap16 w5 = Some v5 /\ swap16 w6 = Some v6 /\
      X720Handler.sensor_data hd
      = reading (voltage_of v5) (capacity_of v6) /\
      PrimFloat.eqb (voltage_of v5) 0 = true.
Proof.
  intros b cfg h sensor h1 hd h2 I1 I2 Hfalsy.
  split; [rewrite setup_steps, I1, I2, Hfalsy; reflexivity |].
  assert (Ha : X720.i2c_addr sensor = CONF_I2C_ADDRESS cfg).
  { rewrite X720_init_cycle in I1.
    pose proof (get_sensor_data_cycle
                  (X720.allocated (CONF_I2C_ADDRESS cfg) b) h) as C.
    destruct (X720.get_sensor_data _) as [[ok | e] [s0 h0]];
      [| discriminate I1].
    destruct (read_cycle_frame _ _ _ _ _ C) as (_ & _ & Ha0 & _).
    injection I1 as <- _. exact Ha0. }
  destruct (X720Handler_init_last_cycle _ _ _ _ I2)
    as (w3 & w4 & w5 & v5 & w6 & v6 & Hh & S5 & S6 & Hsd).
  split; [rewrite Hsd; discriminate |].
  exists w3, w4, w5, v5, w6, v6. rewrite <- Ha.
  split; [exact Hh |]. split; [exact S5 |]. split; [exact S6 |].
  split; [exact Hsd |].
  rewrite Hsd in Hfalsy.
  cbn [reading truthy X720Handler.SensorData.voltage] in Hfalsy.
  apply negb_false_iff. exact Hfalsy.
Qed.

Lemma C7_falsy_voltage_fails_setup_witness :
  exists sensor h1 hd h2,
    X720.__init__ (open_bus flat_cell_bus) DEFAULT_I2C_ADDRESS
                  (Some flat_cell_bus) []
    = (Ok sensor, h1) /\
    X720Handler.__init__ sensor h1 = (Ok hd, h2) /\
    truthy (X720Handler.SensorData.voltage (X720Handler.sensor_data hd))
    = false /\
    _setup_x720 (open_bus flat_cell_bus) default_config []
    = (Ok None,
       h2 ++ [EvSleep 0.5;
              EvLogError "X720 sensor failed to Initialize" []]) /\
    X720Handler.sensor_data hd <> X720Handler.SensorData.__init__ /\
    exists w3 w4 w5 v5 w6 v6,
      h2 = h1 ++ [EvRead DEFAULT_I2C_ADDRESS 2 (Word w3);
                  EvRead DEFAULT_I2C_ADDRESS 4 (Word w4);
                  EvRead DEFAULT_I2C_ADDRESS 2 (Word w5);
                  EvRead DEFAULT_I2C_ADDRESS 4 (Word w6)] /\
      swap16 w5 = Some v5 /\ swap16 w6 = Some v6 /\
      X720Handler.sensor_data hd
      = reading (voltage_of v5) (capacity_of v6) /\
      PrimFloat.eqb (voltage_of v5) 0 = true.
Proof.
  eexists _, _, _, _.
  split; [reflexivity |]. split; [reflexivity |]. split; [reflexivity |].
  exact (C7_falsy_voltage_fails_setup flat_cell_bus default_config []
           _ _ _ _ eq_refl eq_refl eq_refl).
Defined.

(** On that gauge the dropped cache is 0.0 V with the 50.0 % of the same
    cycle. *)
Example setup_drops_a_zero_volt_reading :
  exists sensor h1 hd h2,
    X720.__init__ (open_bus flat_cell_bus) DEFAULT_I2C_ADDRESS
                  (Some flat_cell_bus) []
    = (Ok sensor, h1) /\
    X720Handler.__init__ sensor h1 = (Ok hd, h2) /\
    X720Handler.sensor_data hd = reading 0 50 /\
    fst (_setup_x720 (open_bus flat_cell_bus) default_config []) = Ok None.
Proof. eexists _, _, _, _. repeat split; reflexivity. Qed.

(** The specification has the cache remain [None] when set-up fails.  On a
    gauge that answers zero, set-up fails, yet the cache of the handler it
    built holds 0.0 V and 0.0 %. *)
Lemma C7_counterexample_cache_is_not_None :
  fst (_setup_x720 (open_bus (steady_bus 0)) default_config []) = Ok None /\
  exists sensor h1 hd h2,
    X720.__init__ (open_bus (steady_bus 0)) DEFAULT_I2C_ADDRESS
                  (Some (steady_bus 0)) []
    = (Ok sensor, h1) /\
    X720Handler.__init__ sensor h1 = (Ok hd, h2) /\
    X720Handler.sensor_data hd
    = reading 0 0 /\
    X720Handler.sensor_data hd <> X720Handler.SensorData.__init__.
Proof.
  split; [reflexivity |].
  eexists _, _, _, _.
  split; [reflexivity |]. split; [reflexivity |]. split; [reflexivity |].
  discriminate.
Qed.

(** C1.  In every run of [_setup_x720] on an opened bus, what is appended
    to the history is a block of register reads followed by nothing, by the
    "not detected" record, or, once three read cycles (six transactions)
    are complete, by the half-second sleep and possibly the "failed to
    Initialize" record: no register is read after the sleep, so the voltage
    that set-up evaluates was read before it.  A gauge that answers zero
    until half a second has elapsed therefore fails set-up. *)
Theorem C1_setup_sleeps_after_the_last_read :
  (forall (b : bus) (cfg : config) (h : history),
      exists reads tail,
        snd (_setup_x720 (open_bus b) cfg h) = h ++ reads ++ tail /\
        Forall is_read reads /\
        (tail = [] \/
         tail = [EvLogError "X720 sensor not detected at 0x%02x"
                            [CONF_I2C_ADDRESS cfg]] \/
         (List.length reads = 6%nat /\
          (tail = [EvSleep 0.5] \/
           tail = [EvSleep 0.5;
                   EvLogError "X720 sensor failed to Initialize" []])))) /\
  _setup_x720 (open_bus (settling_bus 0x800C)) default_config []
  = (Ok None,
     [EvRead 0x36 2 (Word 0); EvRead 0x36 4 (Word 0);
      EvRead 0x36 2 (Word 0); EvRead 0x36 4 (Word 0);
      EvRead 0x36 2 (Word 0); EvRead 0x36 4 (Word 0);
      EvSleep 0.5;
      EvLogError "X720 sensor failed to Initialize" []]).
Proof.
  split; [| reflexivity].
  intros b cfg h. rewrite setup_steps, X720_init_cycle.
  pose proof (get_sensor_data_cycle
                (X720.allocated (CONF_I2C_ADDRESS cfg) b) h) as C.
  destruct (X720.get_sensor_data _) as [[ok | e] [s1 h1]].
  - destruct (read_cycle_returns _ _ _ _ _ C)
      as (_ & w2 & v2 & w4 & v4 & _ & _ & -> & _).
    destruct (X720Handler.__init__ s1 _) as [[hd | e] h2] eqn:I.
    + destruct (X720Handler_init_returns _ _ _ _ I)
        as (reads & -> & Hr & Hlen & _).
      eexists (_ :: _ :: reads).
      destruct (truthy _); eexists; cbn [snd];
        (split; [rewrite <- !app_assoc; reflexivity |]);
        (split; [repeat constructor; exact Hr |]);
        right; right; (split; [cbn [List.length]; rewrite Hlen; reflexivity |]);
        [left | right]; reflexivity.
    + destruct (X720Handler_init_reads_only _ _ _ _ I) as (evs & -> & Hr).
      eexists (_ :: _ :: evs), []. cbn [snd].
      split; [rewrite app_nil_r, <- !app_assoc; reflexivity |].
      split; [repeat constructor; exact Hr |]. left. reflexivity.
  - destruct (read_cycle_frame _ _ _ _ _ C) as ((evs & -> & Hr & _) & _).
    exists evs.
    destruct (RuntimeError_or_IOError e); cbn [snd].
    + eexists. split; [rewrite <- app_assoc; reflexivity |].
      split; [exact Hr |]. right. left. reflexivity.
    + exists []. split; [rewrite app_nil_r; reflexivity |].
      split; [exact Hr |]. left. reflexivity.
Qed.

(** On a gauge that answers at once, the same set-up returns a handler. *)
Example setup_returns_handler :
  exists hd,
    _setup_x720 (open_bus (steady_bus 0x800C)) default_config []
    = (Ok (Some hd),
       [EvRead 0x36 2 (Word 0x800C); EvRead 0x36 4 (Word 0x800C);
        EvRead 0x36 2 (Word 0x800C); EvRead 0x36 4 (Word 0x800C);
        EvRead 0x36 2 (Word 0x800C); EvRead 0x36 4 (Word 0x800C);
        EvSleep 0.5]) /\
    X720Handler.sensor_data hd
    = reading 0.25 12.5.
Proof. eexists. split; reflexivity. Qed.

(** ** Faults that escape *)

(** C3.  A bus fault is turned into the result [None] only while the driver
    is being constructed.  The same fault in the read cycles of the handler
    during set-up, or in a later refresh, leaves [_setup_x720] and [update]
    as a raised exception. *)
Theorem C3_read_fault_escapes_as_exception :
  _setup_x720 (open_bus (faulty_bus 0 IOError 0x800C)) default_config []
  = (Ok None,
     [EvRead 0x36 2 (Fault IOError);
      EvLogError "X720 sensor not detected at 0x%02x" [0x36]]) /\
  _setup_x720 (open_bus (faulty_bus 2 IOError 0x800C)) default_config []
  = (Raise IOError,
     [EvRead 0x36 2 (Word 0x800C); EvRead 0x36 4 (Word 0x800C);
      EvRead 0x36 2 (Fault IOError)]) /\
  fst (X720Handler.update false
         (serving_handler (faulty_bus 0 IOError 0x800C), []))
  = Raise IOError.
Proof. repeat split; reflexivity. Qed.


(** * Further properties of the driver *)

(** ** Enumeration of the 16-bit words *)

Lemma zrange_In (n : nat) : forall start v,
  start <= v < start + Z.of_nat n -> In v (zrange start n).
Proof.
  induction n as [| n IH]; intros start v Hv.
  - cbn in Hv. lia.
  - cbn [zrange]. destruct (Z.eq_dec start v) as [-> | Hne].
    + left. reflexivity.
    + right. apply IH. lia.
Qed.

Lemma u16s_forall (P : Z -> bool) :
  forallb P u16s = true -> forall v, 0 <= v < 65536 -> P v = true.
Proof.
  intros HP v Hv. rewrite forallb_forall in HP. apply HP.
  apply zrange_In. rewrite Z2Nat.id by lia. lia.
Qed.

Lemma swap16_swapped (w v : Z) :
  swap16 w = Some v -> 0 <= w < 65536 /\ v = swapped w /\ 0 <= v < 65536.
Proof.
  intros H. destruct (swap16_range _ _ H) as [Hw Hv].
  rewrite swap16_u16 in H by exact Hw.
  split; [exact Hw |]. split; [unfold swapped; congruence | exact Hv].
Qed.

Lemma swapped_zero (w : Z) : 0 <= w < 65536 -> (swapped w =? 0) = (w =? 0).
Proof.
  intros Hw. unfold swapped.
  pose proof (Z.div_mod w 256 ltac:(lia)) as Hdm.
  pose proof (Z.mod_pos_bound w 256 ltac:(lia)) as Hlo.
  assert (Hhi : 0 <= w / 256) by (apply Z.div_pos; lia).
  destruct (Z.eqb_spec w 0) as [-> | Hne].
  - reflexivity.
  - apply Z.eqb_neq. lia.
Qed.

(** ** Range and injectivity of the conversions *)


Lemma conversions_invertible_u16 :
  forallb (fun v =>
             Uint63.eqb (trunc63 (voltage_of v * 12800 + 0.5)) (Uint63.of_Z v)
             && Uint63.eqb (trunc63 (capacity_of v * 256)) (Uint63.of_Z v))
          u16s = true.
Proof. vm_compute. reflexivity. Qed.

Lemma of_Z_injective_u16 (v v' : Z) :
  0 <= v < 65536 -> 0 <= v' < 65536 ->
  Uint63.of_Z v = Uint63.of_Z v' -> v = v'.
Proof.
  intros Hv Hv' E.
  assert (B : 65536 < 2 ^ Uint63.to_Z Uint63.digits) by reflexivity.
  rewrite (Uint63.is_int v), (Uint63.is_int v') by lia.
  rewrite E. reflexivity.
Qed.

Lemma voltage_truthy_u16 :
  forallb (fun v =>
             Bool.eqb (truthy (PyFloat (voltage_of v))) (negb (v =? 0)))
          u16s = true.
Proof. vm_compute. reflexivity. Qed.



(** X2.  The two conversions lose nothing: on unsigned 16-bit values,
    equal voltages come from equal register values, and so do equal
    capacities. *)
Theorem X2_conversions_injective :
  forall v v' : Z,
    0 <= v < 65536 -> 0 <= v' < 65536 ->
    (voltage_of v = voltage_of v' -> v = v') /\
    (capacity_of v = capacity_of v' -> v = v').
Proof.
  intros v v' Hv Hv'.
  pose proof (u16s_forall _ conversions_invertible_u16 v Hv) as I.
  pose proof (u16s_forall _ conversions_invertible_u16 v' Hv') as I'.
  apply andb_true_iff in I as [Iv Ic]. apply andb_true_iff in I' as [Iv' Ic'].
  apply Uint63.eqb_correct in Iv, Ic, Iv', Ic'.
  split; intros E; apply of_Z_injective_u16; try assumption.
  - rewrite <- Iv, <- Iv', E. reflexivity.
  - rewrite <- Ic, <- Ic', E. reflexivity.
Qed.

Lemma X2_conversions_injective_witness :
  (0 <= 3200 < 65536 /\ 0 <= 3201 < 65536) /\
  (voltage_of 3200 = voltage_of 3201 -> 3200 = 3201) /\
  (capacity_of 3200 = capacity_of 3201 -> 3200 = 3201).
Proof.
  split; [lia |].
  exact (X2_conversions_injective 3200 3201 ltac:(lia) ltac:(lia)).
Defined.

(** ** Set-up on a bus that delivers *)

(** One read cycle on a bus that delivers two unsigned 16-bit words. *)
Lemma get_sensor_data_delivered (self : X720.t) (h : history) (w2 w4 : Z) :
  0 <= w2 < 65536 -> 0 <= w4 < 65536 ->
  delivers (X720._i2c self) (X720.i2c_addr self) h [(2, w2); (4, w4)] ->
  X720.get_sensor_data (self, h)
  = (Ok true,
     (X720.with_data
        (FieldData.set_capacity (PyFloat (capacity_of (swapped w4))))
        (X720.with_data
           (FieldData.set_voltage (PyFloat (voltage_of (swapped w2)))) self),
      h ++ reads_of (X720.i2c_addr self) [(2, w2); (4, w4)])).
Proof.
  intros Hw2 Hw4 (R2 & R4 & _).
  pose proof (swap16_u16 w2 Hw2) as S2. pose proof (swap16_u16 w4 Hw4) as S4.
  pose proof (get_sensor_data_cycle self h) as C.
  inversion C as [e R | w R S | w v e R S R' | w v w' R S R' S'
                  | w v w' v' R S R' S'];
    rewrite R2 in R; try discriminate R;
    injection R as <-; rewrite S2 in S; try discriminate S;
    injection S as <-; rewrite R4 in R'; try discriminate R';
    injection R' as <-; rewrite S4 in S'; try discriminate S'.
  injection S' as <-. reflexivity.
Qed.

Lemma delivers_app (b : bus) (a : Z) (s1 s2 : list (Z * Z)) :
  forall h,
    delivers b a h (s1 ++ s2) <->
    delivers b a h s1 /\ delivers b a (h ++ reads_of a s1) s2.
Proof.
  induction s1 as [| [reg w] s1 IH]; intros h; cbn [app delivers reads_of map].
  - rewrite app_nil_r. tauto.
  - rewrite IH. fold (reads_of a s1). rewrite <- app_assoc. cbn [app]. tauto.
Qed.



(** X4.  On a bus that delivers six unsigned 16-bit words, the outcome of
    [_setup_x720] is decided by the third read cycle alone: the words of
    the first two cycles are dropped, set-up fails exactly when the voltage
    word of the third cycle is zero, and otherwise the handler caches the
    conversions of the third cycle.  No non-zero voltage word is mistaken
    for a failure. *)
Theorem X4_setup_decided_by_third_cycle :
  forall (b : bus) (cfg : config) (h : history) (w1 w2 w3 w4 w5 w6 : Z),
    let a := CONF_I2C_ADDRESS cfg in
    let script := [(2, w1); (4, w2); (2, w3); (4, w4); (2, w5); (4, w6)] in
    let v := PyFloat (voltage_of (swapped w5)) in
    let c := PyFloat (capacity_of (swapped w6)) in
    Forall (fun w => 0 <= w < 65536) [w1; w2; w3; w4; w5; w6] ->
    delivers b a h script ->
    _setup_x720 (open_bus b) cfg h
    = if w5 =? 0
      then (Ok None,
            h ++ reads_of a script
              ++ [EvSleep 0.5;
                  EvLogError "X720 sensor failed to Initialize" []])
      else (Ok (Some
                  {| X720Handler.sensor_data :=
                       {| X720Handler.SensorData.voltage := v;
                          X720Handler.SensorData.capacity := c |};
                     X720Handler._sensor :=
                       {| X720.data := {| FieldData.status := PyNone;
                                          FieldData.voltage := v;
                                          FieldData.capacity := c |};
                          X720.i2c_addr := a;
                          X720._i2c := b |} |}),
            h ++ reads_of a script ++ [EvSleep 0.5]).
Proof.
  intros b cfg h w1 w2 w3 w4 w5 w6 a script v c Hrange D.
  repeat match goal with
         | H : Forall _ (_ :: _) |- _ => inversion H; subst; clear H
         | H : Forall _ [] |- _ => clear H
         end.
  change script with ([(2, w1); (4, w2)] ++ [(2, w3); (4, w4)]
                        ++ [(2, w5); (4, w6)]) in D.
  apply delivers_app in D as [D1 D]. apply delivers_app in D as [D2 D3].
  rewrite setup_steps, X720_init_cycle.
  rewrite (get_sensor_data_delivered _ h w1 w2) by assumption.
  rewrite X720Handler_init_update, update_first_read.
  cbn [X720Handler.allocated X720Handler._sensor].
  rewrite (get_sensor_data_delivered _ _ w3 w4) by assumption.
  rewrite update_refresh.
  cbn [X720Handler.with_sensor X720Handler._sensor].
  rewrite <- app_assoc in D3.
  rewrite <- app_assoc.
  rewrite (get_sensor_data_delivered _ _ w5 w6) by assumption.
  cbn [caching X720Handler.sensor_data X720Handler.SensorData.voltage
       X720.with_data X720.data FieldData.set_voltage FieldData.set_capacity
       FieldData.voltage FieldData.capacity FieldData.status
       X720.allocated FieldData.__init__ X720.i2c_addr X720._i2c].
  assert (T : truthy (PyFloat (voltage_of (swapped w5))) = negb (w5 =? 0)).
  { rewrite <- swapped_zero by assumption.
    apply eqb_prop.
    apply (u16s_forall _ voltage_truthy_u16 (swapped w5)).
    pose proof (swap16_u16 w5 ltac:(assumption)) as S5.
    exact (proj2 (swap16_range _ _ S5)). }
  rewrite T. fold a.
  destruct (w5 =? 0); cbn [negb]; rewrite <- !app_assoc; reflexivity.
Qed.

Lemma X4_setup_decided_by_third_cycle_witness :
  Forall (fun w => 0 <= w < 65536) [0x800C; 0x0032; 0; 0; 0x800C; 0x0032] /\
  _setup_x720
    (open_bus (fun h _ reg =>
                 if (read_count h =? 2)%nat || (read_count h =? 3)%nat
                 then Word 0
                 else if reg =? 2 then Word 0x800C else Word 0x0032))
    default_config []
  = (Ok (Some
           {| X720Handler.sensor_data := reading 0.25 50;
              X720Handler._sensor :=
                {| X720.data := {| FieldData.status := PyNone;
                                   FieldData.voltage := PyFloat 0.25;
                                   FieldData.capacity := PyFloat 50 |};
                   X720.i2c_addr := DEFAULT_I2C_ADDRESS;
                   X720._i2c :=
                     fun h _ reg =>
                       if (read_count h =? 2)%nat || (read_count h =? 3)%nat
                       then Word 0
                       else if reg =? 2 then Word 0x800C else Word 0x0032 |}
           |}),
     [EvRead 0x36 2 (Word 0x800C); EvRead 0x36 4 (Word 0x0032);
      EvRead 0x36 2 (Word 0); EvRead 0x36 4 (Word 0);
      EvRead 0x36 2 (Word 0x800C); EvRead 0x36 4 (Word 0x0032);
      EvSleep 0.5]).
Proof.
  assert (R : Forall (fun w => 0 <= w < 65536)
                     [0x800C; 0x0032; 0; 0; 0x800C; 0x0032])
    by (repeat constructor; lia).
  split; [exact R |].
  exact (X4_setup_decided_by_third_cycle
           (fun h _ reg =>
              if (read_count h =? 2)%nat || (read_count h =? 3)%nat
              then Word 0
              else if reg =? 2 then Word 0x800C else Word 0x0032)
           default_config [] 0x800C 0x0032 0 0 0x800C 0x0032 R
           (conj eq_refl (conj eq_refl (conj eq_refl
              (conj eq_refl (conj eq_refl (conj eq_refl I))))))).
Defined.


(** ** Faults before the handler exists *)

(** X5.  While the driver is being constructed, a bus fault of class
    [IOError] or [RuntimeError] makes [_setup_x720] return [None] after at
    most two transactions and the "not detected" record, without sleeping;
    a fault of another class propagates.  The [struct.error] of a voltage
    word outside the unsigned 16-bit range is not caught either.  When the
    bus cannot be opened, the device is not read at all. *)
Theorem X5_faults_during_construction :
  forall (b : bus) (cfg : config) (h : history),
    let a := CONF_I2C_ADDRESS cfg in
    let not_detected :=
      EvLogError "X720 sensor not detected at 0x%02x" [a] in
    (forall e,
        cycle_fault (X720.allocated a b) h e ->
        exists evs,
          Forall is_read evs /\ (List.length evs <= 2)%nat /\
          _setup_x720 (open_bus b) cfg h
          = if RuntimeError_or_IOError e
            then (Ok None, h ++ evs ++ [not_detected])
            else (Raise e, h ++ evs)) /\
    (forall w,
        b h a 2 = Word w -> ~ 0 <= w < 65536 ->
        _setup_x720 (open_bus b) cfg h
        = (Raise StructError, h ++ [EvRead a 2 (Word w)])) /\
    (forall e,
        _setup_x720 (fun _ => raise e) cfg h
        = if RuntimeError_or_IOError e
          then (Ok None, h ++ [not_detected])
          else (Raise e, h)).
Proof.
  intros b cfg h a not_detected. split; [| split].
  - intros e F. rewrite setup_steps, X720_init_cycle. fold a.
    pose proof (get_sensor_data_cycle (X720.allocated a b) h) as C.
    destruct (cycle_fault_raises _ _ _ F) as (s1 & h1 & E & _).
    rewrite E in C |- *.
    inversion C as [e' R | w R S | w v e' R S R' | w v w' R S R' S'
                    | w v w' v' R S R' S']; subst.
    + exists [EvRead a 2 (Fault e)].
      split; [repeat constructor |]. split; [repeat constructor |].
      destruct (RuntimeError_or_IOError e);
        rewrite <- ?app_assoc; reflexivity.
    + exists [EvRead a 2 (Word w)].
      split; [repeat constructor |]. split; [repeat constructor |].
      rewrite <- ?app_assoc; reflexivity.
    + exists [EvRead a 2 (Word w); EvRead a 4 (Fault e)].
      split; [repeat constructor |]. split; [repeat constructor |].
      destruct (RuntimeError_or_IOError e);
        rewrite <- ?app_assoc; reflexivity.
    + exists [EvRead a 2 (Word w); EvRead a 4 (Word w')].
      split; [repeat constructor |]. split; [repeat constructor |].
      rewrite <- ?app_assoc; reflexivity.
  - intros w R Hw. rewrite setup_steps, X720_init_cycle. fold a.
    pose proof (get_sensor_data_cycle (X720.allocated a b) h) as C.
    pose proof (swap16_out_of_range w Hw) as S0.
    inversion C as [e' R1 | w1 R1 S | w1 v e' R1 S R' | w1 v w' R1 S R' S'
                    | w1 v w' v' R1 S R' S'];
      cbn [X720.allocated X720._i2c X720.i2c_addr] in R1;
      rewrite R in R1; try discriminate R1;
      injection R1 as <-; rewrite S0 in S; try discriminate S.
    reflexivity.
  - intros e. unfold _setup_x720, try_except, bind, raise, log_error, emit,
      modify, ret.
    destruct e; reflexivity.
Qed.

Lemma X5_faults_during_construction_witness :
  cycle_fault (X720.allocated DEFAULT_I2C_ADDRESS
                 (faulty_bus 1 IOError 0x800C)) [] IOError /\
  exists evs,
    Forall is_read evs /\ (List.length evs <= 2)%nat /\
    _setup_x720 (open_bus (faulty_bus 1 IOError 0x800C)) default_config []
    = (Ok None,
       [] ++ evs
          ++ [EvLogError "X720 sensor not detected at 0x%02x"
                         [DEFAULT_I2C_ADDRESS]]).
Proof.
  assert (F : cycle_fault (X720.allocated DEFAULT_I2C_ADDRESS
                             (faulty_bus 1 IOError 0x800C)) [] IOError).
  { right. exists 0x800C. split; [lia |]. split; reflexivity. }
  split; [exact F |].
  exact (proj1 (X5_faults_during_construction
                  (faulty_bus 1 IOError 0x800C) default_config [])
               IOError F).
Defined.


(** * Properties of the entity layer *)

(** ** Look-ups in [SENSOR_TYPES] *)

Lemma known_dec (variable : string) : {known variable} + {~ known variable}.
Proof.
  unfold known.
  destruct (string_dec variable SENSOR_VOLTAGE);
    destruct (string_dec variable SENSOR_CAPACITY); tauto.
Qed.

Lemma SENSOR_TYPES_getitem (key : string) :
  dict_getitem SENSOR_TYPES key
  = if String.eqb key SENSOR_VOLTAGE then Done ["Voltage"; "V"]%string
    else if String.eqb key SENSOR_CAPACITY then Done ["Capacity"; "%"]%string
    else Failed (KeyError key).
Proof.
  cbn [dict_getitem SENSOR_TYPES].
  rewrite (String.eqb_sym SENSOR_VOLTAGE key),
          (String.eqb_sym SENSOR_CAPACITY key).
  reflexivity.
Qed.

Lemma X720Sensor_init_known (variable unit_ name : string) entity :
  X720Sensor.__init__ variable unit_ name = Done entity ->
  known variable /\ X720Sensor.type entity = variable /\
  X720Sensor._state entity = StNone /\
  X720Sensor.client_name entity = name.
Proof.
  unfold X720Sensor.__init__. rewrite SENSOR_TYPES_getitem.
  destruct (String.eqb_spec variable SENSOR_VOLTAGE) as [-> | Hv].
  - cbn. intros E. injection E as <-. unfold known. auto.
  - destruct (String.eqb_spec variable SENSOR_CAPACITY) as [-> | Hc].
    + cbn. intros E. injection E as <-. unfold known. auto.
    + cbn. discriminate.
Qed.

Lemma append_entities_known (name : string) (variables : list string) :
  Forall known variables ->
  forall dev, exists new,
      append_entities name variables dev = Done (dev ++ new) /\
      Forall2 (registered name) variables new.
Proof.
  induction 1 as [| variable rest K _ IH]; intros dev.
  - exists []. rewrite app_nil_r. split; [reflexivity | constructor].
  - cbn [append_entities]. rewrite SENSOR_TYPES_getitem.
    destruct K as [-> | ->]; cbn;
      match goal with
      | |- context [append_entities name rest (dev ++ [?e])] =>
          destruct (IH (dev ++ [e])) as (new & -> & F2); exists (e :: new)
      end;
      (split; [rewrite <- app_assoc; reflexivity |]);
      constructor; try exact F2; [left | right]; split; reflexivity.
Qed.

Lemma append_entities_unknown (name : string) (variables : list string) :
  ~ Forall known variables ->
  forall dev, exists variable,
      In variable variables /\ ~ known variable /\
      append_entities name variables dev = Failed (KeyError variable).
Proof.
  induction variables as [| variable rest IH]; intros Hnot dev.
  - exfalso. apply Hnot. constructor.
  - destruct (known_dec variable) as [K | NK].
    + assert (Hrest : ~ Forall known rest)
        by (intros F; apply Hnot; constructor; assumption).
      cbn [append_entities]. rewrite SENSOR_TYPES_getitem.
      destruct K as [-> | ->]; cbn;
        match goal with
        | |- context [append_entities name rest ?d] =>
            destruct (IH Hrest d) as (c & Hin & Hc & ->)
        end;
        exists c; (split; [right; exact Hin |]); split;
          [exact Hc | reflexivity | exact Hc | reflexivity].
    + exists variable. split; [left; reflexivity |]. split; [exact NK |].
      cbn [append_entities]. rewrite SENSOR_TYPES_getitem.
      destruct (String.eqb_spec variable SENSOR_VOLTAGE) as [E | _];
        [exfalso; apply NK; left; exact E |].
      destruct (String.eqb_spec variable SENSOR_CAPACITY) as [E | _];
        [exfalso; apply NK; right; exact E |].
      reflexivity.
Qed.

Lemma string_app_inv_head (p s1 s2 : string) :
  (p ++ s1 = p ++ s2)%string -> s1 = s2.
Proof.
  induction p as [| c p IH]; cbn; intros E; [exact E |].
  injection E as E. exact (IH E).
Qed.

Lemma registered_name_injective name v1 e1 v2 e2 :
  registered name v1 e1 -> registered name v2 e2 ->
  X720Sensor.name e1 = X720Sensor.name e2 -> v1 = v2.
Proof.
  intros [[-> ->] | [-> ->]] [[-> ->] | [-> ->]] E;
    try reflexivity;
    unfold X720Sensor.name in E; cbn in E;
    apply string_app_inv_head in E; discriminate E.
Qed.

Lemma registered_names_NoDup name variables dev :
  Forall2 (registered name) variables dev ->
  NoDup variables -> NoDup (map X720Sensor.name dev).
Proof.
  induction 1 as [| v e vs es R F2 IH]; intros ND; [constructor |].
  inversion ND as [| ? ? Hnotin ND']; subst.
  cbn [map]. constructor; [| exact (IH ND')].
  intros Hin. apply in_map_iff in Hin as (e' & Hname & Hin').
  apply Hnotin. clear IH ND ND' Hnotin.
  induction F2 as [| v' e'' vs es R' F2 IH2]; [contradiction |].
  destruct Hin' as [-> | Hin'].
  - left. exact (registered_name_injective _ _ _ _ _ R' R Hname).
  - right. exact (IH2 Hin').
Qed.

(** ** [async_setup_platform] *)

(** X6.  Entities reach [async_add_entities] only after [_setup_x720]
    handed out a handler, and creating them touches neither the bus nor the
    log.  There is one entity for each monitored condition, in the order of
    the configuration, with the platform name, the label and the unit of
    its condition and no state yet; conditions listed once give entities
    with different names. *)
Theorem X6_platform_registers_one_entity_per_condition :
  forall SMBus (cfg : platform_config) (h : history) hd dev h',
    async_setup_platform SMBus cfg h = (Done (Some (hd, dev)), h') ->
    _setup_x720 SMBus (driver_config cfg) h = (Ok (Some hd), h') /\
    Forall2 (registered (CONF_NAME cfg)) (CONF_MONITORED_CONDITIONS cfg) dev /\
    (NoDup (CONF_MONITORED_CONDITIONS cfg) ->
     NoDup (map X720Sensor.name dev)).
Proof.
  intros SMBus cfg h hd dev h'. unfold async_setup_platform.
  destruct (_setup_x720 SMBus (driver_config cfg) h)
    as [[[sensor_handler |] | e] h1]; try discriminate.
  destruct (Forall_dec known known_dec (CONF_MONITORED_CONDITIONS cfg))
    as [K | NK].
  - destruct (append_entities_known (CONF_NAME cfg) _ K [])
      as (new & -> & F2).
    cbn [app]. intros E. injection E as <- <- <-.
    split; [reflexivity |]. split; [exact F2 |].
    exact (registered_names_NoDup _ _ _ F2).
  - destruct (append_entities_unknown (CONF_NAME cfg) _ NK [])
      as (c & _ & _ & ->).
    discriminate.
Qed.

Lemma X6_platform_registers_one_entity_per_condition_witness :
  exists hd dev h',
    async_setup_platform (open_bus (steady_bus 0x800C))
      {| driver_config := default_config;
         CONF_NAME := DEFAULT_NAME;
         CONF_MONITORED_CONDITIONS := DEFAULT_MONITORED |} []
    = (Done (Some (hd, dev)), h') /\
    _setup_x720 (open_bus (steady_bus 0x800C)) default_config []
    = (Ok (Some hd), h') /\
    Forall2 (registered DEFAULT_NAME) DEFAULT_MONITORED dev /\
    (NoDup DEFAULT_MONITORED -> NoDup (map X720Sensor.name dev)).
Proof.
  eexists _, _, _. split; [reflexivity |].
  exact (X6_platform_registers_one_entity_per_condition
           (open_bus (steady_bus 0x800C))
           {| driver_config := default_config;
              CONF_NAME := DEFAULT_NAME;
              CONF_MONITORED_CONDITIONS := DEFAULT_MONITORED |} []
           _ _ _ eq_refl).
Defined.

(** The loop stops at the first condition that [SENSOR_TYPES] lacks. *)
Lemma append_entities_first_unknown (name : string)
      (before : list string) (variable : string) (after : list string) :
  Forall known before -> ~ known variable ->
  forall dev,
    append_entities name (before ++ variable :: after) dev
    = Failed (KeyError variable).
Proof.
  intros KB NK. induction KB as [| v before K _ IH]; intros dev.
  - cbn [app append_entities]. rewrite SENSOR_TYPES_getitem.
    destruct (String.eqb_spec variable SENSOR_VOLTAGE) as [E | _];
      [exfalso; apply NK; left; exact E |].
    destruct (String.eqb_spec variable SENSOR_CAPACITY) as [E | _];
      [exfalso; apply NK; right; exact E |].
    reflexivity.
  - cbn [app append_entities]. rewrite SENSOR_TYPES_getitem.
    destruct K as [-> | ->]; cbn; apply IH.
Qed.

(** A list with an unknown condition splits at the first one. *)
Lemma first_unknown (variables : list string) :
  ~ Forall known variables ->
  exists before variable after,
    variables = before ++ variable :: after /\
    Forall known before /\ ~ known variable.
Proof.
  induction variables as [| v rest IH]; intros Hnot.
  - exfalso. apply Hnot. constructor.
  - destruct (known_dec v) as [K | NK].
    + destruct IH as (before & variable & after & -> & KB & NK).
      { intros F. apply Hnot. constructor; assumption. }
      exists (v :: before), variable, after.
      split; [reflexivity |]. split; [constructor; assumption | exact NK].
    + exists [], v, rest. split; [reflexivity |].
      split; [constructor | exact NK].
Qed.

(** X7.  Once [_setup_x720] has handed out a handler, creating the
    entities can fail in one way only.  With monitored conditions that are
    all keys of [SENSOR_TYPES], which is what the platform schema admits,
    the platform always registers its entities.  Otherwise the list splits
    at its first unknown condition, and the platform raises [KeyError] for
    exactly that one: this happens after the device was initialised, and no
    entity is registered, not even for the valid conditions before it. *)
Theorem X7_unknown_condition_registers_nothing :
  forall SMBus (cfg : platform_config) (h : history) hd h',
    _setup_x720 SMBus (driver_config cfg) h = (Ok (Some hd), h') ->
    (Forall known (CONF_MONITORED_CONDITIONS cfg) ->
     exists dev,
       async_setup_platform SMBus cfg h = (Done (Some (hd, dev)), h') /\
       Forall2 (registered (CONF_NAME cfg))
               (CONF_MONITORED_CONDITIONS cfg) dev) /\
    (~ Forall known (CONF_MONITORED_CONDITIONS cfg) ->
     exists before variable after,
       CONF_MONITORED_CONDITIONS cfg = before ++ variable :: after /\
       Forall known before /\ ~ known variable /\
       async_setup_platform SMBus cfg h = (Failed (KeyError variable), h')) /\
    (forall before variable after,
        CONF_MONITORED_CONDITIONS cfg = before ++ variable :: after ->
        Forall known before -> ~ known variable ->
        async_setup_platform SMBus cfg h = (Failed (KeyError variable), h')).
Proof.
  intros SMBus cfg h hd h' S.
  assert (Hfirst : forall before variable after,
             CONF_MONITORED_CONDITIONS cfg = before ++ variable :: after ->
             Forall known before -> ~ known variable ->
             async_setup_platform SMBus cfg h
             = (Failed (KeyError variable), h')).
  { intros before variable after E KB NK.
    unfold async_setup_platform. rewrite S, E.
    rewrite (append_entities_first_unknown _ _ _ _ KB NK). reflexivity. }
  split; [| split; [| exact Hfirst]].
  - intros K. unfold async_setup_platform. rewrite S.
    destruct (append_entities_known (CONF_NAME cfg) _ K [])
      as (dev & -> & F2).
    exists dev. split; [reflexivity | exact F2].
  - intros NK.
    destruct (first_unknown _ NK) as (before & variable & after & E & KB & NV).
    exists before, variable, after.
    split; [exact E |]. split; [exact KB |]. split; [exact NV |].
    exact (Hfirst _ _ _ E KB NV).
Qed.

Lemma X7_unknown_condition_registers_nothing_witness :
  exists hd h',
    _setup_x720 (open_bus (steady_bus 0x800C)) default_config []
    = (Ok (Some hd), h') /\
    (Forall known [SENSOR_VOLTAGE] /\ ~ known "temperature"%string) /\
    async_setup_platform (open_bus (steady_bus 0x800C))
      {| driver_config := default_config;
         CONF_NAME := DEFAULT_NAME;
         CONF_MONITORED_CONDITIONS :=
           [SENSOR_VOLTAGE; "temperature"; "humidity"; SENSOR_CAPACITY]%string
      |} []
    = (Failed (KeyError "temperature"), h').
Proof.
  assert (KB : Forall known [SENSOR_VOLTAGE])
    by (constructor; [left; reflexivity | constructor]).
  assert (NK : ~ known "temperature"%string)
    by (intros [K | K]; discriminate K).
  eexists _, _. split; [reflexivity |]. split; [split; assumption |].
  exact (proj2 (proj2
           (X7_unknown_condition_registers_nothing
              (open_bus (steady_bus 0x800C))
              {| driver_config := default_config;
                 CONF_NAME := DEFAULT_NAME;
                 CONF_MONITORED_CONDITIONS :=
                   [SENSOR_VOLTAGE; "temperature"; "humidity";
                    SENSOR_CAPACITY]%string |} []
              _ _ eq_refl))
           [SENSOR_VOLTAGE] "temperature"%string
           ["humidity"; SENSOR_CAPACITY]%string eq_refl KB NK).
Defined.

(** ** Icons *)

(** X8.  An entity that the constructor built always has an icon, whatever
    state it is given later: a voltage entity shows the flash, and a
    capacity entity shows the unknown battery exactly while its state is
    [None]. *)
Theorem X8_constructed_entity_always_has_an_icon :
  forall (variable unit_ name : string) (entity : X720Sensor.t),
    X720Sensor.__init__ variable unit_ name = Done entity ->
    forall st : state_val,
      X720Sensor.icon (X720Sensor.set_state st entity) <> None /\
      (variable = SENSOR_VOLTAGE ->
       X720Sensor.icon (X720Sensor.set_state st entity)
       = Some "mdi:flash"%string) /\
      (variable = SENSOR_CAPACITY ->
       (X720Sensor.icon (X720Sensor.set_state st entity)
        = Some "mdi:battery-unknown"%string <-> st = StNone)).
Proof.
  intros variable unit_ name entity I st.
  destruct (X720Sensor_init_known _ _ _ _ I) as (K & Hty & _).
  unfold X720Sensor.icon.
  cbn [X720Sensor.set_state X720Sensor.type X720Sensor._state].
  rewrite Hty. destruct K as [-> | ->]; cbn [String.eqb SENSOR_VOLTAGE
    SENSOR_CAPACITY Ascii.eqb Bool.eqb].
  - split; [discriminate |]. split; [reflexivity |]. discriminate.
  - split; [| split; [discriminate |]].
    + destruct st as [| n | f]; cbn [X720Sensor.is_number];
        repeat match goal with
               | |- context [if ?c then _ else _] => destruct c
               end; discriminate.
    + intros _. destruct st as [| n | f]; cbn [X720Sensor.is_number];
        repeat match goal with
               | |- context [if ?c then _ else _] => destruct c
               end; split; (reflexivity || discriminate).
Qed.

Lemma X8_constructed_entity_always_has_an_icon_witness :
  exists entity,
    X720Sensor.__init__ SENSOR_CAPACITY "%" DEFAULT_NAME = Done entity /\
    X720Sensor.icon (X720Sensor.set_state (StFloat 12.5) entity) <> None /\
    (X720Sensor.icon (X720Sensor.set_state StNone entity)
     = Some "mdi:battery-unknown"%string <-> StNone = StNone).
Proof.
  eexists. split; [reflexivity |].
  split.
  - exact (proj1 (X8_constructed_entity_always_has_an_icon
                    SENSOR_CAPACITY "%" DEFAULT_NAME _ eq_refl
                    (StFloat 12.5))).
  - exact (proj2 (proj2 (X8_constructed_entity_always_has_an_icon
                           SENSOR_CAPACITY "%" DEFAULT_NAME _ eq_refl StNone))
                 eq_refl).
Defined.

(** ** [async_update] *)

Lemma async_update_done round_1 (self : X720Sensor.t) client h
      u self' client' h' :
  known (X720Sensor.type self) ->
  X720Sensor.async_update round_1 (self, (client, h))
  = (Done u, (self', (client', h'))) ->
  exists w2 v2 w4 v4,
    swap16 w2 = Some v2 /\ swap16 w4 = Some v4 /\
    h' = h ++ [EvRead (X720.i2c_addr (X720Handler._sensor client)) 2 (Word w2);
               EvRead (X720.i2c_addr (X720Handler._sensor client)) 4 (Word w4)]
    /\
    X720Handler.sensor_data client'
    = reading (voltage_of v2) (capacity_of v4) /\
    X720.i2c_addr (X720Handler._sensor client')
    = X720.i2c_addr (X720Handler._sensor client) /\
    self' = X720Sensor.set_state
              (StFloat (round_1
                 (if String.eqb (X720Sensor.type self) SENSOR_VOLTAGE
                  then voltage_of v2 else capacity_of v4))) self.
Proof.
  intros K. unfold X720Sensor.async_update.
  destruct (X720Handler.update false (client, h)) as [[u0 | e] [c1 h1]] eqn:U;
    [| discriminate].
  destruct (refresh_returns _ _ _ _ _ U)
    as (w2 & v2 & w4 & v4 & S2 & S4 & -> & Hsd).
  pose proof (update_has_effect _ _ _ _ _ _ U) as (_ & _ & Ha & _).
  rewrite Hsd.
  cbn [reading X720Handler.SensorData.voltage X720Handler.SensorData.capacity
       py_round_1].
  destruct K as [K | K]; rewrite K;
    cbn [String.eqb SENSOR_VOLTAGE SENSOR_CAPACITY Ascii.eqb Bool.eqb];
    intros E; injection E as _ <- <- <-;
    exists w2, v2, w4, v4; repeat split; try assumption; reflexivity.
Qed.

Lemma async_update_failed round_1 (self : X720Sensor.t) client h
      e self' client' h' :
  known (X720Sensor.type self) ->
  X720Sensor.async_update round_1 (self, (client, h))
  = (Failed e, (self', (client', h'))) ->
  self' = self /\
  X720Handler.sensor_data client' = X720Handler.sensor_data client /\
  exists e0,
    e = Propagated e0 /\
    X720Handler.update false (client, h) = (Raise e0, (client', h')).
Proof.
  intros K. unfold X720Sensor.async_update.
  destruct (X720Handler.update false (client, h)) as [[u0 | e0] [c1 h1]] eqn:U.
  - destruct (refresh_returns _ _ _ _ _ U)
      as (w2 & v2 & w4 & v4 & _ & _ & _ & Hsd).
    rewrite Hsd.
    cbn [reading X720Handler.SensorData.voltage
         X720Handler.SensorData.capacity py_round_1].
    destruct K as [K | K]; rewrite K;
      cbn [String.eqb SENSOR_VOLTAGE SENSOR_CAPACITY Ascii.eqb Bool.eqb];
      discriminate.
  - intros E. injection E as <- <- <- <-.
    split; [reflexivity |].
    split; [exact (proj2 (update_raised_keeps_cache _ _ _ _ _ _ U)) |].
    exists e0. split; reflexivity.
Qed.

(** X9.  One [async_update] of a voltage or capacity entity either runs
    one complete read cycle, leaves its two conversions in the shared cache
    and sets the state to the rounded conversion of its own kind, a float;
    or it fails with the exception that the handler's [update] raised,
    having changed neither the state of the entity nor the cache.  [round]
    is never applied to [None]: no [TypeError] arises, even when the cache
    was empty before the call. *)
Theorem X9_async_update_rounds_a_fresh_reading :
  forall round_1 (self : X720Sensor.t) (client : X720Handler.t)
         (h : history),
    known (X720Sensor.type self) ->
    match X720Sensor.async_update round_1 (self, (client, h)) with
    | (Done _, (self', (client', h'))) =>
        exists w2 v2 w4 v4,
          swap16 w2 = Some v2 /\ swap16 w4 = Some v4 /\
          h' = h ++ [EvRead (X720.i2c_addr (X720Handler._sensor client)) 2
                            (Word w2);
                     EvRead (X720.i2c_addr (X720Handler._sensor client)) 4
                            (Word w4)] /\
          X720Handler.sensor_data client'
          = reading (voltage_of v2) (capacity_of v4) /\
          self' = X720Sensor.set_state
                    (StFloat (round_1
                       (if String.eqb (X720Sensor.type self) SENSOR_VOLTAGE
                        then voltage_of v2 else capacity_of v4))) self
    | (Failed e, (self', (client', h'))) =>
        self' = self /\
        X720Handler.sensor_data client' = X720Handler.sensor_data client /\
        exists e0,
          e = Propagated e0 /\
          X720Handler.update false (client, h) = (Raise e0, (client', h'))
    end.
Proof.
  intros round_1 self client h K.
  destruct (X720Sensor.async_update round_1 (self, (client, h)))
    as [[u | e] [self' [client' h']]] eqn:A.
  - destruct (async_update_done _ _ _ _ _ _ _ _ K A)
      as (w2 & v2 & w4 & v4 & S2 & S4 & Hh & Hsd & _ & Hself).
    exists w2, v2, w4, v4. repeat split; assumption.
  - exact (async_update_failed _ _ _ _ _ _ _ _ K A).
Qed.

Lemma X9_async_update_rounds_a_fresh_reading_witness :
  known (X720Sensor.type capacity_entity) /\
  match X720Sensor.async_update float_round_1
          (capacity_entity,
           (X720Handler.allocated
              (X720.allocated DEFAULT_I2C_ADDRESS (steady_bus 0x800C)), []))
  with
  | (Done _, (self', (client', h'))) =>
      exists w2 v2 w4 v4,
        swap16 w2 = Some v2 /\ swap16 w4 = Some v4 /\
        h' = [] ++ [EvRead DEFAULT_I2C_ADDRESS 2 (Word w2);
                    EvRead DEFAULT_I2C_ADDRESS 4 (Word w4)] /\
        X720Handler.sensor_data client'
        = reading (voltage_of v2) (capacity_of v4) /\
        self' = X720Sensor.set_state
                  (StFloat (float_round_1 (capacity_of v4))) capacity_entity
  | (Failed e, _) => False
  end.
Proof.
  assert (K : known (X720Sensor.type capacity_entity))
    by (right; reflexivity).
  split; [exact K |].
  exact (X9_async_update_rounds_a_fresh_reading float_round_1
           capacity_entity
           (X720Handler.allocated
              (X720.allocated DEFAULT_I2C_ADDRESS (steady_bus 0x800C)))
           [] K).
Defined.

(** ** Polling *)

(** X10.  When the host polls the voltage entity and then the capacity
    entity of one handler, each call runs a read cycle of its own: four
    transactions in all.  The voltage shown is that of the first cycle and
    the capacity shown that of the second, while the shared cache holds the
    second cycle only. *)
Theorem X10_each_entity_reads_its_own_cycle :
  forall round_1 (volt cap : X720Sensor.t) (client : X720Handler.t)
         (h : history) volt' cap' client' h',
    let a := X720.i2c_addr (X720Handler._sensor client) in
    X720Sensor.type volt = SENSOR_VOLTAGE ->
    X720Sensor.type cap = SENSOR_CAPACITY ->
    poll round_1 [volt; cap] (client, h)
    = ([Done tt; Done tt], ([volt'; cap'], (client', h'))) ->
    exists w1 v1 w2 v2 w3 v3 w4 v4,
      (swap16 w1 = Some v1 /\ swap16 w2 = Some v2 /\
       swap16 w3 = Some v3 /\ swap16 w4 = Some v4) /\
      h' = h ++ [EvRead a 2 (Word w1); EvRead a 4 (Word w2);
                 EvRead a 2 (Word w3); EvRead a 4 (Word w4)] /\
      X720Sensor._state volt' = StFloat (round_1 (voltage_of v1)) /\
      X720Sensor._state cap' = StFloat (round_1 (capacity_of v4)) /\
      X720Handler.sensor_data client'
      = reading (voltage_of v3) (capacity_of v4).
Proof.
  intros round_1 volt cap client h volt' cap' client' h' a Tv Tc.
  cbn [poll].
  destruct (X720Sensor.async_update round_1 (volt, (client, h)))
    as [r1 [volt1 [client1 h1]]] eqn:A1.
  destruct (X720Sensor.async_update round_1 (cap, (client1, h1)))
    as [r2 [cap2 [client2 h2]]] eqn:A2.
  intros E. injection E as -> -> <- <- <- <-.
  assert (Kv : known (X720Sensor.type volt)) by (left; exact Tv).
  assert (Kc : known (X720Sensor.type cap)) by (right; exact Tc).
  destruct (async_update_done _ _ _ _ _ _ _ _ Kv A1)
    as (w1 & v1 & w2 & v2 & S1 & S2 & -> & _ & Ha1 & ->).
  destruct (async_update_done _ _ _ _ _ _ _ _ Kc A2)
    as (w3 & v3 & w4 & v4 & S3 & S4 & -> & Hsd & _ & ->).
  exists w1, v1, w2, v2, w3, v3, w4, v4.
  rewrite Ha1, <- app_assoc. fold a. rewrite Tv, Tc.
  cbn [X720Sensor.set_state X720Sensor._state String.eqb SENSOR_VOLTAGE
       SENSOR_CAPACITY Ascii.eqb Bool.eqb app].
  repeat split; assumption.
Qed.

Lemma X10_each_entity_reads_its_own_cycle_witness :
  exists volt' cap' client' h',
    (X720Sensor.type voltage_entity = SENSOR_VOLTAGE /\
     X720Sensor.type capacity_entity = SENSOR_CAPACITY) /\
    poll float_round_1 [voltage_entity; capacity_entity]
      (serving_handler
         (fun h _ _ => if (read_count h <? 2)%nat
                       then Word 0x800C else Word 0x0032), [])
    = ([Done tt; Done tt], ([volt'; cap'], (client', h'))) /\
    exists w1 v1 w2 v2 w3 v3 w4 v4,
      (swap16 w1 = Some v1 /\ swap16 w2 = Some v2 /\
       swap16 w3 = Some v3 /\ swap16 w4 = Some v4) /\
      h' = [] ++ [EvRead DEFAULT_I2C_ADDRESS 2 (Word w1);
                  EvRead DEFAULT_I2C_ADDRESS 4 (Word w2);
                  EvRead DEFAULT_I2C_ADDRESS 2 (Word w3);
                  EvRead DEFAULT_I2C_ADDRESS 4 (Word w4)] /\
      X720Sensor._state volt' = StFloat (float_round_1 (voltage_of v1)) /\
      X720Sensor._state cap' = StFloat (float_round_1 (capacity_of v4)) /\
      X720Handler.sensor_data client'
      = reading (voltage_of v3) (capacity_of v4).
Proof.
  eexists _, _, _, _. split; [split; reflexivity |].
  split; [reflexivity |].
  exact (X10_each_entity_reads_its_own_cycle float_round_1
           voltage_entity capacity_entity
           (serving_handler
              (fun h _ _ => if (read_count h <? 2)%nat
                            then Word 0x800C else Word 0x0032))
           [] _ _ _ _ eq_refl eq_refl eq_refl).
Defined.

(** The same poll, evaluated: the voltage entity shows the 0.25 V of the
    first cycle, rounded to 0.2, while the cache holds the 1.0 V of the
    second. *)
Example poll_shows_two_cycles :
  match poll float_round_1 [voltage_entity; capacity_entity]
          (serving_handler
             (fun h _ _ => if (read_count h <? 2)%nat
                           then Word 0x800C else Word 0x0032), []) with
  | (rs, (entities, (client', _))) =>
      rs = [Done tt; Done tt] /\
      map X720Sensor._state entities
      = [StFloat (float_round_1 0.25); StFloat 50] /\
      X720Handler.sensor_data client' = reading 1 50
  end.
Proof. repeat split; reflexivity. Qed.

(** ** Capacity icon and register value *)

Lemma capacity_icon_u16 :
  forallb (fun v =>
             let st := StFloat (float_round_1 (capacity_of v)) in
             Bool.eqb (X720Sensor.state_ge st 100) (25588 <=? v)
             && Bool.eqb (X720Sensor.state_ge st 50) (12788 <=? v))
          u16s = true.
Proof. vm_compute. reflexivity. Qed.

(** X11.  With CPython's rounding, the icon of a capacity entity after an
    [async_update] that returned is a step function of the capacity
    register just read: the full battery from the corrected value 25588
    (99.953125 %) on, the half battery from 12788 (49.953125 %) on, the
    alert below, and never the unknown battery. *)
Theorem X11_capacity_icon_follows_the_register :
  forall (self : X720Sensor.t) (client : X720Handler.t) (h : history)
         u self' client' h',
    X720Sensor.type self = SENSOR_CAPACITY ->
    X720Sensor.async_update float_round_1 (self, (client, h))
    = (Done u, (self', (client', h'))) ->
    exists w2 w4 v4,
      h' = h ++ [EvRead (X720.i2c_addr (X720Handler._sensor client)) 2
                        (Word w2);
                 EvRead (X720.i2c_addr (X720Handler._sensor client)) 4
                        (Word w4)] /\
      swap16 w4 = Some v4 /\
      X720Sensor.icon self'
      = Some (if 25588 <=? v4 then "mdi:battery"%string
              else if 12788 <=? v4 then "mdi:battery-50"%string
                   else "mdi:battery-alert"%string).
Proof.
  intros self client h u self' client' h' T A.
  assert (K : known (X720Sensor.type self)) by (right; exact T).
  destruct (async_update_done _ _ _ _ _ _ _ _ K A)
    as (w2 & v2 & w4 & v4 & _ & S4 & Hh & _ & _ & ->).
  exists w2, w4, v4. split; [exact Hh |]. split; [exact S4 |].
  destruct (swap16_swapped _ _ S4) as (_ & _ & Hv4).
  pose proof (u16s_forall _ capacity_icon_u16 v4 Hv4) as B.
  cbv zeta in B. apply andb_true_iff in B as [B100 B50].
  apply eqb_prop in B100, B50.
  unfold X720Sensor.icon.
  cbn [X720Sensor.set_state X720Sensor.type X720Sensor._state
       X720Sensor.is_number].
  rewrite T.
  cbn [String.eqb SENSOR_VOLTAGE SENSOR_CAPACITY Ascii.eqb Bool.eqb].
  rewrite B100, B50.
  destruct (25588 <=? v4); [reflexivity |].
  destruct (12788 <=? v4); reflexivity.
Qed.

Lemma X11_capacity_icon_follows_the_register_witness :
  exists self' client' h',
    X720Sensor.type capacity_entity = SENSOR_CAPACITY /\
    X720Sensor.async_update float_round_1
      (capacity_entity, (serving_handler (steady_bus 0xF463), []))
    = (Done tt, (self', (client', h'))) /\
    exists w2 w4 v4,
      h' = [] ++ [EvRead DEFAULT_I2C_ADDRESS 2 (Word w2);
                  EvRead DEFAULT_I2C_ADDRESS 4 (Word w4)] /\
      swap16 w4 = Some v4 /\
      X720Sensor.icon self'
      = Some (if 25588 <=? v4 then "mdi:battery"%string
              else if 12788 <=? v4 then "mdi:battery-50"%string
                   else "mdi:battery-alert"%string).
Proof.
  eexists _, _, _. split; [reflexivity |]. split; [reflexivity |].
  exact (X11_capacity_icon_follows_the_register capacity_entity
           (serving_handler (steady_bus 0xF463)) [] tt _ _ _
           eq_refl eq_refl).
Defined.

(** * Further properties of the handler *)

(** X12.  The throwaway read of [update(first_read=True)] is not protected:
    a bus fault in it is raised by [update], the second read cycle is not
    attempted (at most two transactions are made) and the cache is left as
    it was. *)
Theorem X12_throwaway_read_fault_aborts_update :
  forall (hd : X720Handler.t) (h : history) (e : exn),
    cycle_fault (X720Handler._sensor hd) h e ->
    exists hd' evs,
      X720Handler.update true (hd, h) = (Raise e, (hd', h ++ evs)) /\
      Forall is_read evs /\ (List.length evs <= 2)%nat /\
      X720Handler.sensor_data hd' = X720Handler.sensor_data hd.
Proof.
  intros hd h e F. rewrite update_first_read.
  pose proof (get_sensor_data_cycle (X720Handler._sensor hd) h) as C.
  destruct (cycle_fault_raises _ _ _ F) as (s1 & h1 & E & _).
  rewrite E in C |- *.
  inversion C as [e' R | w R S | w v e' R S R' | w v w' R S R' S'
                  | w v w' v' R S R' S']; subst;
    eexists _, [_] + eexists _, [_; _];
    (split; [rewrite <- ?app_assoc; reflexivity |]);
    (split; [repeat constructor |]);
    (split; [repeat constructor | reflexivity]).
Qed.

Lemma X12_throwaway_read_fault_aborts_update_witness :
  cycle_fault
    (X720Handler._sensor (serving_handler (faulty_bus 0 IOError 0x800C)))
    [] IOError /\
  exists hd' evs,
    X720Handler.update true (serving_handler (faulty_bus 0 IOError 0x800C), [])
    = (Raise IOError, (hd', [] ++ evs)) /\
    Forall is_read evs /\ (List.length evs <= 2)%nat /\
    X720Handler.sensor_data hd'
    = X720Handler.sensor_data (serving_handler (faulty_bus 0 IOError 0x800C)).
Proof.
  assert (F : cycle_fault
                (X720Handler._sensor
                   (serving_handler (faulty_bus 0 IOError 0x800C)))
                [] IOError) by (left; reflexivity).
  split; [exact F |].
  exact (X12_throwaway_read_fault_aborts_update
           (serving_handler (faulty_bus 0 IOError 0x800C)) [] IOError F).
Defined.

Lemma refresh_keeps_device_identity hd h r hd' h' :
  X720Handler.update false (hd, h) = (r, (hd', h')) ->
  X720._i2c (X720Handler._sensor hd') = X720._i2c (X720Handler._sensor hd) /\
  X720.i2c_addr (X720Handler._sensor hd')
  = X720.i2c_addr (X720Handler._sensor hd) /\
  FieldData.status (X720.data (X720Handler._sensor hd'))
  = FieldData.status (X720.data (X720Handler._sensor hd)) /\
  (returned r = true ->
   X720Handler.SensorData.voltage (X720Handler.sensor_data hd')
   = FieldData.voltage (X720.data (X720Handler._sensor hd')) /\
   X720Handler.SensorData.capacity (X720Handler.sensor_data hd')
   = FieldData.capacity (X720.data (X720Handler._sensor hd'))).
Proof.
  rewrite update_refresh.
  pose proof (get_sensor_data_cycle (X720Handler._sensor hd) h) as C.
  destruct (X720.get_sensor_data (X720Handler._sensor hd, h))
    as [[b | e] [s1 h1]];
    destruct (read_cycle_frame _ _ _ _ _ C) as (_ & Hb & Ha & Hs & _).
  - destruct (read_cycle_returns _ _ _ _ _ C) as (-> & _).
    intros E. injection E as <- <- <-.
    cbn [caching X720Handler._sensor X720Handler.sensor_data
         X720Handler.SensorData.voltage X720Handler.SensorData.capacity].
    repeat split; assumption.
  - intros E. injection E as <- <- <-.
    cbn [X720Handler.with_sensor X720Handler._sensor returned].
    repeat split; try assumption; discriminate.
Qed.

(** X13.  Whatever its outcome, an [update] keeps the bus handle and the
    address of the device object and never writes its [status]; when it
    returns, the two attributes of the cache are those of the record of
    the device object. *)
Theorem X13_update_mirrors_the_device_record :
  forall first_read (hd : X720Handler.t) (h : history) r hd' h',
    X720Handler.update first_read (hd, h) = (r, (hd', h')) ->
    X720._i2c (X720Handler._sensor hd') = X720._i2c (X720Handler._sensor hd) /\
    X720.i2c_addr (X720Handler._sensor hd')
    = X720.i2c_addr (X720Handler._sensor hd) /\
    FieldData.status (X720.data (X720Handler._sensor hd'))
    = FieldData.status (X720.data (X720Handler._sensor hd)) /\
    (returned r = true ->
     X720Handler.SensorData.voltage (X720Handler.sensor_data hd')
     = FieldData.voltage (X720.data (X720Handler._sensor hd')) /\
     X720Handler.SensorData.capacity (X720Handler.sensor_data hd')
     = FieldData.capacity (X720.data (X720Handler._sensor hd'))).
Proof.
  intros first_read hd h r hd' h'.
  destruct first_read; [| apply refresh_keeps_device_identity].
  rewrite update_first_read.
  pose proof (get_sensor_data_cycle (X720Handler._sensor hd) h) as C.
  destruct (X720.get_sensor_data (X720Handler._sensor hd, h))
    as [[b | e] [s1 h1]];
    destruct (read_cycle_frame _ _ _ _ _ C) as (_ & Hb & Ha & Hs & _).
  - intros U. apply refresh_keeps_device_identity in U.
    cbn [X720Handler.with_sensor X720Handler._sensor] in U.
    destruct U as (Hb' & Ha' & Hs' & Hm).
    split; [congruence |]. split; [congruence |]. split; [congruence |].
    exact Hm.
  - intros E. injection E as <- <- <-.
    cbn [X720Handler.with_sensor X720Handler._sensor returned].
    repeat split; try assumption; discriminate.
Qed.

Lemma X13_update_mirrors_the_device_record_witness :
  exists r hd' h',
    X720Handler.update true (serving_handler (steady_bus 0x800C), [])
    = (r, (hd', h')) /\
    X720._i2c (X720Handler._sensor hd') = steady_bus 0x800C /\
    X720.i2c_addr (X720Handler._sensor hd') = DEFAULT_I2C_ADDRESS /\
    FieldData.status (X720.data (X720Handler._sensor hd')) = PyNone /\
    (returned r = true ->
     X720Handler.SensorData.voltage (X720Handler.sensor_data hd')
     = FieldData.voltage (X720.data (X720Handler._sensor hd')) /\
     X720Handler.SensorData.capacity (X720Handler.sensor_data hd')
     = FieldData.capacity (X720.data (X720Handler._sensor hd'))).
Proof.
  eexists _, _, _. split; [reflexivity |].
  exact (X13_update_mirrors_the_device_record true
           (serving_handler (steady_bus 0x800C)) [] _ _ _ eq_refl).
Defined.
